(** * React expense tracker: the ledger, the form validator and the app shell

    A shallow embedding of [src/App.js].  The pure parts of the component
    (the derived values of [ExpenseTracker], the reducer of [DoughnutChart],
    the validation prefix of [handleAddOrUpdateTransaction], the edit
    handler) become Rocq functions; the asynchronous handlers become state
    transformers that take the reply of the document store as an argument.

    Numbers.  A JavaScript Number is modelled by [Number]: NaN, the two
    infinities, or a finite value.  Finite values are exact rationals: the
    rounding of IEEE-754 double arithmetic is idealised away, and so is the
    finite range of doubles. *)

From Stdlib Require Import ZArith QArith Qabs Qround Lqa Lia Bool List.
From Stdlib Require Import Ascii String DecimalString.
From Stdlib Require DecimalN.
From Stdlib Require Import Sorting.Sorted Sorting.Permutation.
Import ListNotations.

Local Open Scope string_scope.
Local Open Scope Z_scope.

(** ** The JavaScript runtime, as far as the program uses it *)

Module JS.

Inductive Number : Type :=
| NaN
| Infinity (negative : bool)
| Finite (q : Q).

(** A value held by the [amount] state: the string of the number input, or
    the Number stored by [handleEditTransaction]. *)
Inductive Value : Type :=
| VString (s : string)
| VNumber (n : Number).

Definition Qltb (a b : Q) : bool := negb (Qle_bool b a).

(** [a < b], [a <= b], [a > b] on Numbers; every comparison with NaN is
    false. *)
Definition lt (a b : Number) : bool :=
  match a, b with
  | NaN, _ | _, NaN => false
  | Infinity na, Infinity nb => na && negb nb
  | Infinity na, Finite _ => na
  | Finite _, Infinity nb => negb nb
  | Finite x, Finite y => Qltb x y
  end.

Definition le (a b : Number) : bool :=
  match a, b with
  | NaN, _ | _, NaN => false
  | Infinity na, Infinity nb => na || negb nb
  | Infinity na, Finite _ => na
  | Finite _, Infinity nb => negb nb
  | Finite x, Finite y => Qle_bool x y
  end.

Definition gt (a b : Number) : bool := lt b a.

Definition zero : Number := Finite 0.

Definition add (a b : Number) : Number :=
  match a, b with
  | NaN, _ | _, NaN => NaN
  | Infinity na, Infinity nb => if Bool.eqb na nb then Infinity na else NaN
  | Infinity na, Finite _ => Infinity na
  | Finite _, Infinity nb => Infinity nb
  | Finite x, Finite y => Finite (x + y)
  end.

(** Unary minus. *)
Definition neg (a : Number) : Number :=
  match a with
  | NaN => NaN
  | Infinity n => Infinity (negb n)
  | Finite x => Finite (- x)
  end.

Definition mul (a b : Number) : Number :=
  match a, b with
  | NaN, _ | _, NaN => NaN
  | Infinity na, Infinity nb => Infinity (xorb na nb)
  | Infinity na, Finite y =>
      if Qeq_bool y 0 then NaN else Infinity (xorb na (Qltb y 0))
  | Finite x, Infinity nb =>
      if Qeq_bool x 0 then NaN else Infinity (xorb (Qltb x 0) nb)
  | Finite x, Finite y => Finite (x * y)
  end.

(** [Math.abs]. *)
Definition Math_abs (a : Number) : Number :=
  match a with
  | NaN => NaN
  | Infinity _ => Infinity false
  | Finite x => Finite (Qabs x)
  end.

(** ToBoolean: what [!v] negates. *)
Definition truthyNumber (n : Number) : bool :=
  match n with
  | NaN => false
  | Infinity _ => true
  | Finite x => negb (Qeq_bool x 0)
  end.

Definition truthyString (s : string) : bool :=
  match s with
  | EmptyString => false
  | String _ _ => true
  end.

Definition truthy (v : Value) : bool :=
  match v with
  | VString s => truthyString s
  | VNumber n => truthyNumber n
  end.

(** *** parseFloat *)

Definition isDigit (c : ascii) : bool :=
  let n := nat_of_ascii c in (48 <=? n)%nat && (n <=? 57)%nat.

Definition digitValue (c : ascii) : Z := Z.of_nat (nat_of_ascii c) - 48.

(** The ASCII part of StrWhiteSpaceChar: TAB, LF, VT, FF, CR, SP. *)
Definition isWhiteSpace (c : ascii) : bool :=
  let n := nat_of_ascii c in
  ((9 <=? n)%nat && (n <=? 13)%nat) || (n =? 32)%nat.

Fixpoint trimStart (l : list ascii) : list ascii :=
  match l with
  | c :: r => if isWhiteSpace c then trimStart r else l
  | [] => []
  end.

(** The longest run of decimal digits at the head, and what follows it. *)
Fixpoint spanDigits (l : list ascii) : list ascii * list ascii :=
  match l with
  | c :: r =>
      if isDigit c then let (ds, rest) := spanDigits r in (c :: ds, rest)
      else ([], l)
  | [] => ([], [])
  end.

Definition digitsValue (ds : list ascii) : Z :=
  fold_left (fun acc c => 10 * acc + digitValue c) ds 0.

Definition parseSign (l : list ascii) : bool * list ascii :=
  match l with
  | "-"%char :: r => (true, r)
  | "+"%char :: r => (false, r)
  | _ => (false, l)
  end.

Fixpoint startsWith (p l : list ascii) : bool :=
  match p, l with
  | [], _ => true
  | a :: p', b :: l' => Ascii.eqb a b && startsWith p' l'
  | _ :: _, [] => false
  end.

(** The value of an ExponentPart at the head of [l]; 0 when there is none
    (an [e] that no digit follows is not part of the literal). *)
Definition parseExponent (l : list ascii) : Z :=
  match l with
  | c :: r =>
      if Ascii.eqb c "e" || Ascii.eqb c "E" then
        let (negative, r') := parseSign r in
        match fst (spanDigits r') with
        | [] => 0
        | ds => if negative then - digitsValue ds else digitsValue ds
        end
      else 0
  | [] => 0
  end.

(** [m * 10^e] as an exact rational. *)
Definition scale10 (m e : Z) : Q :=
  if 0 <=? e then inject_Z (m * 10 ^ e)
  else Qmake m (Z.to_pos (10 ^ (- e))).

(** [parseFloat] of a string: leading white space is skipped, then the
    longest prefix that is a StrDecimalLiteral is converted; NaN when there
    is no such prefix. *)
Definition parseFloatString (s : string) : Number :=
  let l := trimStart (list_ascii_of_string s) in
  let (negative, l1) := parseSign l in
  if startsWith (list_ascii_of_string "Infinity") l1 then Infinity negative
  else
    let (ip, l2) := spanDigits l1 in
    let (fp, l3) :=
      match l2 with
      | "."%char :: r => spanDigits r
      | _ => ([], l2)
      end in
    match (ip ++ fp)%list with
    | [] => NaN
    | ds =>
        let v := scale10 (digitsValue ds)
                         (parseExponent l3 - Z.of_nat (List.length fp)) in
        Finite (if negative then - v else v)
    end.

(** [parseFloat(v)] first converts [v] to a string.  For a Number the
    decimal string that ToString produces denotes that same Number, so the
    composition is the identity on Numbers. *)
Definition parseFloat (v : Value) : Number :=
  match v with
  | VString s => parseFloatString s
  | VNumber n => n
  end.

(** *** Number.prototype.toFixed *)

Definition digits (n : Z) : string :=
  NilZero.string_of_uint (N.to_uint (Z.to_N n)).

Fixpoint zeros (k : nat) : string :=
  match k with
  | O => ""
  | S k' => String "0" (zeros k')
  end.

Definition padStart (width : nat) (s : string) : string :=
  zeros (width - String.length s)%nat ++ s.

(** The integer [n] for which [n / 10^f] is closest to [|x|], ties to the
    larger one. *)
Definition roundScaled (x : Q) (f : nat) : Z :=
  Qfloor (Qabs x * inject_Z (10 ^ Z.of_nat f) + (1 # 2)).

(** [x.toFixed(f)] below 10^21; above, the source falls back to the
    exponential notation of doubles, which is outside the model. *)
Definition toFixed (x : Number) (f : nat) : string :=
  match x with
  | NaN => "NaN"
  | Infinity negative => if negative then "-Infinity" else "Infinity"
  | Finite q =>
      let n := roundScaled q f in
      let p := 10 ^ Z.of_nat f in
      let body :=
        match f with
        | O => digits n
        | S _ => digits (n / p) ++ "." ++ padStart f (digits (n mod p))
        end in
      if Qltb q 0 then "-" ++ body else body
  end.

End JS.

Import JS.

(** ** Dates

    The [date] of a record is the string of the date input, [YYYY-MM-DD].
    The program builds two Date objects from it: [new Date(date)], a
    date-only form, read as midnight UTC, whose time value orders the
    snapshot; and [new Date(date + 'T00:00:00')], a date-time form without
    offset, read as local midnight, whose local year and month select the
    month.  Only these two ISO forms of a real calendar day are recognised;
    every other string gives an Invalid Date (what an engine makes of such a
    string beyond the ISO format is implementation-defined). *)

Module Dates.

Definition isLeapYear (y : Z) : bool :=
  ((y mod 4 =? 0) && negb (y mod 100 =? 0)) || (y mod 400 =? 0).

Definition daysInMonth (y m : Z) : Z :=
  if m =? 2 then (if isLeapYear y then 29 else 28)
  else if (m =? 4) || (m =? 6) || (m =? 9) || (m =? 11) then 30
  else 31.

Definition allDigits (l : list ascii) : bool := forallb isDigit l.

(** The fields of [YYYY-MM-DD], the month counted from 1. *)
Definition parseDateChars (l : list ascii) : option (Z * Z * Z) :=
  match l with
  | [y1; y2; y3; y4; s1; m1; m2; s2; d1; d2] =>
      if allDigits [y1; y2; y3; y4; m1; m2; d1; d2]
         && Ascii.eqb s1 "-" && Ascii.eqb s2 "-"
      then
        let y := digitsValue [y1; y2; y3; y4] in
        let m := digitsValue [m1; m2] in
        let d := digitsValue [d1; d2] in
        if (1 <=? m) && (m <=? 12) && (1 <=? d) && (d <=? daysInMonth y m)
        then Some (y, m, d) else None
      else None
  | _ => None
  end.

Definition parseDate (s : string) : option (Z * Z * Z) :=
  parseDateChars (list_ascii_of_string s).

(** [HH:mm:ss] after the [T]. *)
Definition isTimeChars (l : list ascii) : bool :=
  match l with
  | [t; h1; h2; c1; m1; m2; c2; s1; s2] =>
      Ascii.eqb t "T" && Ascii.eqb c1 ":" && Ascii.eqb c2 ":"
      && allDigits [h1; h2; m1; m2; s1; s2]
      && (digitsValue [h1; h2] <=? 23) && (digitsValue [m1; m2] <=? 59)
      && (digitsValue [s1; s2] <=? 59)
  | _ => false
  end.

(** The calendar day of [YYYY-MM-DDTHH:mm:ss]. *)
Definition parseDateTime (s : string) : option (Z * Z * Z) :=
  let l := list_ascii_of_string s in
  if isTimeChars (skipn 10 l) then parseDateChars (firstn 10 l) else None.

(** Days from 1970-01-01 to the given day of the proleptic Gregorian
    calendar (the MakeDay of the language specification). *)
Definition daysFromCivil (y m d : Z) : Z :=
  let y' := if m <=? 2 then y - 1 else y in
  let era := y' / 400 in
  let yoe := y' - era * 400 in
  let mp := if m <=? 2 then m + 9 else m - 3 in
  let doy := (153 * mp + 2) / 5 + d - 1 in
  let doe := yoe * 365 + yoe / 4 - yoe / 100 + doy in
  era * 146097 + doe - 719468.

Definition msPerDay : Z := 86400000.

(** The time value of [new Date(s)]: milliseconds since the epoch, NaN for
    an Invalid Date. *)
Definition timeValue (s : string) : Number :=
  match parseDate s with
  | Some (y, m, d) => Finite (inject_Z (daysFromCivil y m d * msPerDay))
  | None => NaN
  end.

(** [getFullYear()] and [getMonth()] (counted from 0) of
    [new Date(s + 'T00:00:00')]; [None] for an Invalid Date, whose getters
    return NaN. *)
Definition localYearMonth (s : string) : option (Z * Z) :=
  match parseDateTime (s ++ "T00:00:00") with
  | Some (y, m, _) => Some (y, m - 1)
  | None => None
  end.

End Dates.

Import Dates.

(** ** Records *)

(** The two values of [type] and of [transactionType]. *)
Inductive TxType : Type := Expense | Income.

Definition TxType_eqb (a b : TxType) : bool :=
  match a, b with
  | Expense, Expense | Income, Income => true
  | _, _ => false
  end.

(** The [transactionData] object written to the store: what [doc.data()]
    returns. *)
Record TransactionData : Type := {
  text : string;
  amount : Number;
  category : string;
  type : TxType;
  date : string
}.

(** An element of [transactions]: [{ ...doc.data(), id: doc.id }]. *)
Record Transaction : Type := {
  id : string;
  data : TransactionData
}.

Definition expenseCategories : list string :=
  ["Food"; "Transport"; "Bills"; "Gadgets"; "Entertainment"; "Other"].

Definition incomeCategories : list string :=
  ["Salary"; "Freelance"; "Investment"; "Other"].

(** The options the category select offers for a type. *)
Definition categoriesFor (ty : TxType) : list string :=
  match ty with
  | Expense => expenseCategories
  | Income => incomeCategories
  end.

(** ** The ledger: derived values of [ExpenseTracker] *)

(** [Array.prototype.sort] with a comparator.  The language requires the
    sort to be stable, and with a consistent comparator the result of a
    stable sort is unique, so a stable insertion sort stands for it: [x],
    which came before the elements of [l], moves behind [y] only when
    [compare(x, y) > 0]. *)
Section ArraySort.
Context {A : Type} (compare : A -> A -> Number).

Fixpoint insert (x : A) (l : list A) : list A :=
  match l with
  | [] => [x]
  | y :: l' =>
      if gt (compare x y) zero then y :: insert x l' else x :: l
  end.

Definition Array_sort (l : list A) : list A := fold_right insert [] l.
End ArraySort.

(** [(a, b) => new Date(b.date) - new Date(a.date)]. *)
Definition byDateDescending (a b : Transaction) : Number :=
  add (timeValue (date (data b))) (neg (timeValue (date (data a)))).

(** The snapshot listener: the documents of the snapshot, sorted, become
    the [transactions] state. *)
Definition onSnapshot (docs : list Transaction) : list Transaction :=
  Array_sort byDateDescending docs.

(** [reduce((acc, item) => acc + item, 0)]. *)
Definition sum (items : list Number) : Number := fold_left add items zero.

Record Summary : Type := {
  total : string;
  income : string;
  expense : string
}.

(** The [{ total, income, expense }] memo. *)
Definition summarize (transactions : list Transaction) : Summary :=
  let amounts := map (fun t => amount (data t)) transactions in
  {| total := toFixed (sum amounts) 2;
     income := toFixed (sum (filter (fun item => gt item zero) amounts)) 2;
     expense :=
       toFixed (mul (sum (filter (fun item => lt item zero) amounts))
                    (Finite (- (1)))) 2 |}.

(** The [monthlyTransactions] of the [filteredTransactions] memo: the
    records of one month. *)
Definition monthlyTransactions (transactions : list Transaction)
    (year month : Z) : list Transaction :=
  filter (fun t =>
            match localYearMonth (date (data t)) with
            | Some (y, m) => (y =? year) && (m =? month)
            | None => false
            end) transactions.

(** The [filter] state: ['all'], ['income'] or ['expense']. *)
Inductive Filter : Type := All | Only (ty : TxType).

Definition filterByType (records : list Transaction) (flt : Filter)
  : list Transaction :=
  match flt with
  | All => records
  | Only ty => filter (fun t => TxType_eqb (type (data t)) ty) records
  end.

Definition filteredTransactions (transactions : list Transaction)
    (flt : Filter) (year month : Z) : list Transaction :=
  filterByType (monthlyTransactions transactions year month) flt.

(** *** The reducer of [DoughnutChart]

    The accumulator is a plain object used as a map from category to
    Number.  It is kept as the list of its own properties in insertion
    order, which is the order of [Object.keys] for keys that are not array
    indices; categories are taken not to name a property inherited from
    [Object.prototype]. *)
Definition JsObject : Type := list (string * Number).

Fixpoint get (o : JsObject) (k : string) : option Number :=
  match o with
  | [] => None
  | (k', v) :: o' => if String.eqb k' k then Some v else get o' k
  end.

(** [o[k] = v]: an existing property keeps its place. *)
Fixpoint set (o : JsObject) (k : string) (v : Number) : JsObject :=
  match o with
  | [] => [(k, v)]
  | (k', v') :: o' =>
      if String.eqb k' k then (k', v) :: o' else (k', v') :: set o' k v
  end.

Definition Object_keys (o : JsObject) : list string := map fst o.
Definition Object_values (o : JsObject) : list Number := map snd o.

(** [x || 0] for a property read: [undefined], [0] and [NaN] are falsy. *)
Definition orZero (x : option Number) : Number :=
  match x with
  | Some n => if truthyNumber n then n else zero
  | None => zero
  end.

(** The [expenseData] of the chart effect: the category breakdown. *)
Definition expenseData (transactions : list Transaction) : JsObject :=
  fold_left
    (fun acc t =>
       set acc (category (data t))
           (add (orZero (get acc (category (data t))))
                (Math_abs (amount (data t)))))
    (filter (fun t => TxType_eqb (type (data t)) Expense) transactions)
    [].

(** The data handed to the chart: [Object.keys(expenseData)] and
    [Object.values(expenseData)]. *)
Record ChartData : Type := {
  labels : list string;
  values : list Number
}.

Definition DoughnutChart (transactions : list Transaction) : ChartData :=
  let data := expenseData transactions in
  {| labels := Object_keys data;
     values := Object_values data |}.

(** What one render of [ExpenseTracker] shows, for the current
    [transactions], [filter] and [selectedDate] (its year and month). *)
Record Display : Type := {
  summary : Summary;
  records : list Transaction;
  chart : ChartData
}.

Definition ExpenseTracker (transactions : list Transaction) (flt : Filter)
    (selectedYear selectedMonth : Z) : Display :=
  {| summary := summarize transactions;
     records := filteredTransactions transactions flt
                                     selectedYear selectedMonth;
     chart := DoughnutChart transactions |}.

(** ** The transaction form *)

Module Form.

(** The form state of [ExpenseTracker]. *)
Record State : Type := {
  text : string;
  amount : Value;
  category : string;
  transactionType : TxType;
  date : string;
  editingId : option string;
  formError : string
}.

Definition setFormError (msg : string) (st : State) : State :=
  {| text := text st; amount := amount st; category := category st;
     transactionType := transactionType st; date := date st;
     editingId := editingId st; formError := msg |}.

End Form.



(** The validation and the normalisation of [handleAddOrUpdateTransaction]:
    the message put in [formError], or the [transactionData] to write. *)
Definition validateCreateOrUpdate (st : Form.State)
  : string + TransactionData :=
  if negb (truthyString (Form.text st)) || negb (truthyString (Form.date st))
  then inl "Please fill out all fields."
  else if negb (truthy (Form.amount st))
          || le (parseFloat (Form.amount st)) zero
  then inl "Amount must be a positive number."
  else
    let amountValue :=
      match Form.transactionType st with
      | Expense => neg (Math_abs (parseFloat (Form.amount st)))
      | Income => Math_abs (parseFloat (Form.amount st))
      end in
    inr {| text := Form.text st; amount := amountValue;
           category := Form.category st; type := Form.transactionType st;
           date := Form.date st |}.

(** The calls on the document store, and how an awaited call settles. *)
Inductive StoreCommand : Type :=
| addDoc (d : TransactionData)
| updateDoc (target : string) (d : TransactionData)
| deleteDoc (target : string).

Inductive Settled : Type := Fulfilled | Rejected.

(** How a handler ends: normally, or by an exception nobody catches. *)
Inductive Completion : Type :=
| Normal
| Uncaught (error : string).

(** [if (editingId)]: [null] and the empty string are falsy. *)
Definition editTarget (st : Form.State) : option string :=
  match Form.editingId st with
  | Some i => if truthyString i then Some i else None
  | None => None
  end.

(** The submit handler.  [store] is the document store, [today] the value
    of [new Date().toISOString().slice(0, 10)].  The result is the next
    form state, the call made on the store if any, and the completion. *)
Definition handleAddOrUpdateTransaction (store : StoreCommand -> Settled)
    (today : string) (st : Form.State)
  : Form.State * option StoreCommand * Completion :=
  let st := Form.setFormError "" st in
  match validateCreateOrUpdate st with
  | inl msg => (Form.setFormError msg st, None, Normal)
  | inr transactionData =>
      let cmd :=
        match editTarget st with
        | Some i => updateDoc i transactionData
        | None => addDoc transactionData
        end in
      match store cmd with
      | Fulfilled =>
          ({| Form.text := ""; Form.amount := VString "";
              Form.category := "Food"; Form.transactionType := Expense;
              Form.date := today;
              Form.editingId :=
                match editTarget st with
                | Some _ => None
                | None => Form.editingId st
                end;
              Form.formError := "" |}, Some cmd, Normal)
      | Rejected =>
          (Form.setFormError "Could not save transaction. Please try again."
                             st, Some cmd, Normal)
      end
  end.

(** The delete handler: a rejection is logged and dropped. *)
Definition handleDeleteTransaction (store : StoreCommand -> Settled)
    (target : string) : StoreCommand * Completion :=
  match store (deleteDoc target) with
  | Fulfilled => (deleteDoc target, Normal)
  | Rejected => (deleteDoc target, Normal)
  end.

(** The edit handler: loads a record into the form. *)
Definition handleEditTransaction (transaction : Transaction)
    (st : Form.State) : Form.State :=
  {| Form.text := text (data transaction);
     Form.amount := VNumber (Math_abs (amount (data transaction)));
     Form.category := category (data transaction);
     Form.transactionType := type (data transaction);
     Form.date := date (data transaction);
     Form.editingId := Some (id transaction);
     Form.formError := "" |}.

(** ** The [App] shell

    The listener that [App] registers with [onAuthStateChanged] is a
    closure; the identifiers in its body are resolved in its own scope,
    then in the scope of [App], then in the module and global scopes.  An
    identifier bound in none of them raises a ReferenceError. *)

Module Shell.

(** Imports and top-level declarations of the module. *)
Definition moduleBindings : list string :=
  ["React"; "useState"; "useMemo"; "useEffect"; "useRef";
   "TrendingUp"; "TrendingDown"; "DollarSign"; "Plus"; "Edit"; "Trash2";
   "LogOut"; "Sun"; "Moon"; "Chart"; "initializeApp"; "getAuth";
   "onAuthStateChanged"; "createUserWithEmailAndPassword";
   "signInWithEmailAndPassword"; "signOut"; "getFirestore"; "collection";
   "onSnapshot"; "addDoc"; "updateDoc"; "deleteDoc"; "doc"; "query";
   "firebaseConfig"; "app"; "auth"; "db"; "getFriendlyErrorMessage";
   "expenseCategories"; "incomeCategories"; "currencySymbols";
   "DoughnutChart"; "TransactionItem"; "ExpenseTracker"; "AuthComponent";
   "App"].

(** The globals the module reads. *)
Definition globalBindings : list string :=
  ["process"; "console"; "localStorage"; "document"; "Date"; "Math";
   "Object"; "parseFloat"].

(** [const [user, setUser] = useState(null)] and
    [const [loading] = useState(true)]. *)
Definition App_bindings : list string := ["user"; "setUser"; "loading"].

Inductive Expr : Type :=
| Ident (x : string)
| Literal.

(** A call statement [callee(args)]. *)
Record Call : Type := { callee : string; args : list Expr }.

Definition bound (scope : list string) (x : string) : bool :=
  existsb (String.eqb x) scope.

Definition referenceError (x : string) : Completion :=
  Uncaught ("ReferenceError: " ++ x ++ " is not defined").

Fixpoint evalArgs (scope : list string) (es : list Expr) : Completion :=
  match es with
  | [] => Normal
  | Literal :: es' => evalArgs scope es'
  | Ident x :: es' =>
      if bound scope x then evalArgs scope es' else referenceError x
  end.

(** Runs the statements in order; the first exception ends the body.  The
    result lists the functions that were called. *)
Fixpoint runBody (scope : list string) (body : list Call)
  : list string * Completion :=
  match body with
  | [] => ([], Normal)
  | c :: body' =>
      if bound scope (callee c) then
        match evalArgs scope (args c) with
        | Normal =>
            let (called, completion) := runBody scope body' in
            (callee c :: called, completion)
        | Uncaught e => ([], Uncaught e)
        end
      else ([], referenceError (callee c))
  end.

(** [(currentUser) => { setUser(currentUser); setLoading(false); }]. *)
Definition authListenerBody : list Call :=
  [ {| callee := "setUser"; args := [Ident "currentUser"] |};
    {| callee := "setLoading"; args := [Literal] |} ].

(** The state of [App]: [user] ([None] for [null]) and [loading]. *)
Record AppState : Type := { user : option string; loading : bool }.

(** One notification of the auth service: the listener runs in the scope
    of [App]; [user] changes if [setUser] was called, and [loading], which
    has no setter, keeps its value. *)
Definition authStateChanged (currentUser : option string) (st : AppState)
  : AppState * Completion :=
  let scope :=
    (["currentUser"] ++ App_bindings ++ moduleBindings
       ++ globalBindings)%list in
  let (called, completion) := runBody scope authListenerBody in
  ({| user := if bound called "setUser" then currentUser else user st;
      loading := loading st |}, completion).

End Shell.

(** ** Scenarios *)

Definition lunch : Transaction :=
  {| id := "t1";
     data := {| text := "Lunch"; amount := Finite (- (20)); category := "Food";
                type := Expense; date := "2024-01-05" |} |}.

Definition salary : Transaction :=
  {| id := "t2";
     data := {| text := "Salary"; amount := Finite 100; category := "Salary";
                type := Income; date := "2024-01-10" |} |}.

Definition snack : Transaction :=
  {| id := "t3";
     data := {| text := "Snack"; amount := Finite (- (5)); category := "Food";
                type := Expense; date := "2024-02-01" |} |}.

Definition scenario : list Transaction := [lunch; salary; snack].

(** A stored document of type expense with an amount above 0. *)
Definition refund : Transaction :=
  {| id := "t5";
     data := {| text := "Refund"; amount := Finite 5; category := "Food";
                type := Expense; date := "2024-01-08" |} |}.

(** A stored document with the amount 0. *)
Definition gift : Transaction :=
  {| id := "t4";
     data := {| text := "Gift"; amount := Finite 0; category := "Other";
                type := Income; date := "2024-01-07" |} |}.

(** A draft as the form holds it. *)
Definition draft (txt : string) (amt : Value) (cat : string) (ty : TxType)
    (day : string) : Form.State :=
  {| Form.text := txt; Form.amount := amt; Form.category := cat;
     Form.transactionType := ty; Form.date := day;
     Form.editingId := None; Form.formError := "" |}.

Definition emptyForm : Form.State :=
  draft "" (VString "") "Food" Expense "2024-03-01".

(** A store whose calls all succeed. *)
Definition reliableStore (_ : StoreCommand) : Settled := Fulfilled.

(** ** More of the program *)

(** *** The setters of the form and the Cancel button *)

Definition setText (s : string) (st : Form.State) : Form.State :=
  {| Form.text := s; Form.amount := Form.amount st;
     Form.category := Form.category st;
     Form.transactionType := Form.transactionType st;
     Form.date := Form.date st; Form.editingId := Form.editingId st;
     Form.formError := Form.formError st |}.

(** [onChange] of the amount input: the state holds the string typed. *)
Definition setAmount (s : string) (st : Form.State) : Form.State :=
  {| Form.text := Form.text st; Form.amount := VString s;
     Form.category := Form.category st;
     Form.transactionType := Form.transactionType st;
     Form.date := Form.date st; Form.editingId := Form.editingId st;
     Form.formError := Form.formError st |}.

Definition setDate (s : string) (st : Form.State) : Form.State :=
  {| Form.text := Form.text st; Form.amount := Form.amount st;
     Form.category := Form.category st;
     Form.transactionType := Form.transactionType st;
     Form.date := s; Form.editingId := Form.editingId st;
     Form.formError := Form.formError st |}.

Definition setCategory (s : string) (st : Form.State) : Form.State :=
  {| Form.text := Form.text st; Form.amount := Form.amount st;
     Form.category := s;
     Form.transactionType := Form.transactionType st;
     Form.date := Form.date st; Form.editingId := Form.editingId st;
     Form.formError := Form.formError st |}.

(** The Expense and Income buttons: only the type changes. *)
Definition setTransactionType (ty : TxType) (st : Form.State) : Form.State :=
  {| Form.text := Form.text st; Form.amount := Form.amount st;
     Form.category := Form.category st;
     Form.transactionType := ty;
     Form.date := Form.date st; Form.editingId := Form.editingId st;
     Form.formError := Form.formError st |}.

(** The Cancel Edit button: [setEditingId(null); setText('');
    setAmount(''); setDate(today); setFormError('')]. *)
Definition cancelEdit (today : string) (st : Form.State) : Form.State :=
  {| Form.text := ""; Form.amount := VString "";
     Form.category := Form.category st;
     Form.transactionType := Form.transactionType st;
     Form.date := today; Form.editingId := None;
     Form.formError := "" |}.

(** The initial form state, [today] being the date of the first render. *)
Definition initialForm (today : string) : Form.State :=
  {| Form.text := ""; Form.amount := VString ""; Form.category := "Food";
     Form.transactionType := Expense; Form.date := today;
     Form.editingId := None; Form.formError := "" |}.

(** *** The default date: [new Date().toISOString().slice(0, 10)] *)





(** *** The month navigation *)

(** The local calendar fields of [selectedDate]; the month counts from 0. *)
Record LocalDate : Type := {
  fullYear : Z;
  monthIndex : Z;
  dayOfMonth : Z
}.

(** [date.setMonth(month)]: the month is brought into the year, and the day
    of the month is counted from the first of that month, so a day that the
    month does not have runs over into the following month.  (The day of a
    Date is at most 31 and a month has 28 days at least, so it runs over
    once at most.) *)
Definition setMonth (d : LocalDate) (month : Z) : LocalDate :=
  let y := fullYear d + month / 12 in
  let m := month mod 12 in
  let len := daysInMonth y (m + 1) in
  if dayOfMonth d <=? len then
    {| fullYear := y; monthIndex := m; dayOfMonth := dayOfMonth d |}
  else if m =? 11 then
    {| fullYear := y + 1; monthIndex := 0; dayOfMonth := dayOfMonth d - len |}
  else
    {| fullYear := y; monthIndex := m + 1; dayOfMonth := dayOfMonth d - len |}.

(** [newDate.setMonth(newDate.getMonth() + offset)] on a copy. *)
Definition handleMonthChange (offset : Z) (current : LocalDate) : LocalDate :=
  setMonth current (monthIndex current + offset).

(** *** One row of the list *)




(** *** Preferences *)

(** [localStorage], as the list of its entries. *)
Definition Storage : Type := list (string * string).

Fixpoint getItem (s : Storage) (k : string) : option string :=
  match s with
  | [] => None
  | (k', v) :: s' => if String.eqb k' k then Some v else getItem s' k
  end.

Definition setItem (s : Storage) (k v : string) : Storage :=
  (k, v) :: filter (fun kv => negb (String.eqb (fst kv) k)) s.

(** [localStorage.getItem(key) || fallback]. *)
Definition storedOr (s : Storage) (key fallback : string) : string :=
  match getItem s key with
  | Some v => if truthyString v then v else fallback
  | None => fallback
  end.

Definition initialTheme (s : Storage) : string := storedOr s "theme" "light".

Definition toggleTheme (prevTheme : string) : string :=
  if String.eqb prevTheme "light" then "dark" else "light".

(** The theme effect: whether the root element carries the class [dark],
    and the storage after [setItem('theme', theme)]. *)
Definition themeEffect (theme : string) (s : Storage) : bool * Storage :=
  (String.eqb theme "dark", setItem s "theme" theme).

Definition initialCurrencyCode (s : Storage) : string :=
  storedOr s "currencyCode" "USD".

Definition currencyEffect (currencyCode : string) (s : Storage) : Storage :=
  setItem s "currencyCode" currencyCode.

Definition currencySymbols : list (string * string) :=
  [("USD", "$"); ("EUR", "€"); ("GBP", "£"); ("JPY", "¥"); ("INR", "₹");
   ("AUD", "A$"); ("CAD", "C$"); ("CHF", "CHF"); ("CNY", "CN¥")].

(** The names that every plain object inherits from [Object.prototype]. *)
Definition objectPrototypeKeys : list string :=
  ["constructor"; "hasOwnProperty"; "isPrototypeOf"; "propertyIsEnumerable";
   "toLocaleString"; "toString"; "valueOf"; "__proto__";
   "__defineGetter__"; "__defineSetter__"; "__lookupGetter__";
   "__lookupSetter__"].

(** [currencySymbols[currencyCode] || '$'].  [None] stands for a member of
    [Object.prototype], which is truthy and not a string. *)
Definition currentCurrencySymbol (currencyCode : string) : option string :=
  match getItem currencySymbols currencyCode with
  | Some symbol => Some (if truthyString symbol then symbol else "$")
  | None =>
      if existsb (String.eqb currencyCode) objectPrototypeKeys then None
      else Some "$"
  end.

(** *** Authentication *)

Module Auth.

(** The error of a rejected call of the auth service. *)
Record Error : Type := { code : string; message : string }.

(** The friendly message, and whether the error was written to the
    console. *)
Definition getFriendlyErrorMessage (err : Error) : string * bool :=
  let message := "An unexpected error occurred. Please try again." in
  if String.eqb (code err) "auth/email-already-in-use" then
    ("This email address is already in use. Please try logging in.", false)
  else if String.eqb (code err) "auth/invalid-email" then
    ("Please enter a valid email address.", false)
  else if String.eqb (code err) "auth/weak-password" then
    ("Your password must be at least 6 characters long.", false)
  else if String.eqb (code err) "auth/user-not-found"
          || String.eqb (code err) "auth/wrong-password"
          || String.eqb (code err) "auth/invalid-credential" then
    ("Invalid email or password. Please try again.", false)
  else ("An error occurred. Please try again.", true).

(** The state of [AuthComponent]. *)
Record State : Type := {
  isLogin : bool;
  email : string;
  password : string;
  error : string
}.

Inductive Call : Type :=
| signInWithEmailAndPassword (email password : string)
| createUserWithEmailAndPassword (email password : string).

(** [handleSubmit]: the next state, the call made, whether the console was
    written to, and the completion. *)
Definition handleSubmit (service : Call -> option Error) (st : State)
  : State * Call * bool * Completion :=
  let call :=
    if isLogin st then signInWithEmailAndPassword (email st) (password st)
    else createUserWithEmailAndPassword (email st) (password st) in
  match service call with
  | None =>
      ({| isLogin := isLogin st; email := email st; password := password st;
          error := "" |}, call, false, Normal)
  | Some err =>
      let (friendlyMessage, logged) := getFriendlyErrorMessage err in
      ({| isLogin := isLogin st; email := email st; password := password st;
          error := friendlyMessage |}, call, logged, Normal)
  end.

End Auth.

(** *** What [App] renders *)

Inductive Screen : Type :=
| LoadingScreen
| TrackerScreen (uid : string)
| AuthScreen.

(** [if (loading) return <Loading/>; return user ? <ExpenseTracker/> :
    <AuthComponent/>]. *)
Definition App (st : Shell.AppState) : Screen :=
  if Shell.loading st then LoadingScreen
  else match Shell.user st with
       | Some uid => TrackerScreen uid
       | None => AuthScreen
       end.

(** [useState(null)] and [useState(true)]. *)
Definition App_initial : Shell.AppState :=
  {| Shell.user := None; Shell.loading := true |}.

(** The state after a sequence of notifications of the auth service. *)
Definition afterNotifications (users : list (option string))
  : Shell.AppState :=
  fold_left (fun st u => fst (Shell.authStateChanged u st)) users App_initial.

(** ** Vocabulary of the properties *)

(** A Number that is neither NaN nor zero: what [!n] lets through. *)
Definition nonZero (n : Number) : Prop :=
  match n with
  | NaN => False
  | Infinity _ => True
  | Finite q => ~ (q == 0)%Q
  end.

(** A record that the validator lets through when it is reloaded: an
    identifier, a non-empty text, a date, and an amount that is a number
    other than 0. *)
Definition wellFormed (t : Transaction) : Prop :=
  id t <> "" /\ text (data t) <> "" /\ date (data t) <> ""
  /\ nonZero (amount (data t)).

(** A day of the calendar: a month from 1 to 12 and a day of that month. *)
Definition calendarDay (p : Z * Z * Z) : Prop :=
  let '(y, m, d) := p in 1 <= m <= 12 /\ 1 <= d <= daysInMonth y m.

(** [p] is the same day as [q] or an earlier one. *)
Definition notAfter (p q : Z * Z * Z) : Prop :=
  let '(y, m, d) := p in
  let '(y', m', d') := q in
  y < y' \/ (y = y' /\ (m < m' \/ (m = m' /\ d <= d'))).

(** The number of the day of a record with a calendar date. *)
Definition dayNumber (t : Transaction) : Z :=
  match parseDate (date (data t)) with
  | Some (y, m, d) => daysFromCivil y m d
  | None => 0
  end.

Definition hasCalendarDate (t : Transaction) : Prop :=
  parseDate (date (data t)) <> None.



(** The sum of a list of rationals. *)
Definition sumQ (l : list Q) : Q := fold_right Qplus 0%Q l.

(** The value of a finite Number. *)
Definition valueQ (n : Number) : Q :=
  match n with
  | Finite q => q
  | _ => 0%Q
  end.

Definition isFinite (n : Number) : Prop := exists q, n = Finite q.

(** A record whose amount is a decimal, as in the data model. *)
Definition finiteAmount (t : Transaction) : Prop :=
  isFinite (amount (data t)).

Definition amountQ (t : Transaction) : Q := valueQ (amount (data t)).

(** The number of hundredths that the string [toFixed (Finite q) 2]
    denotes. *)
Definition hundredths (q : Q) : Z :=
  if Qltb q 0 then - roundScaled q 2 else roundScaled q 2.








(** [a] may stand before [b] in a list sorted by decreasing key: both are
    in the domain [ok] of the comparator and the key of [a] is not the
    smaller one. *)
Definition orderedBy {A : Type} (key : A -> Z) (ok : A -> Prop) (a b : A)
  : Prop :=
  ok a /\ ok b /\ key b <= key a.

(** The date is a day of the calendar. *)
Definition validLocalDate (d : LocalDate) : Prop :=
  0 <= monthIndex d <= 11
  /\ 1 <= dayOfMonth d <= daysInMonth (fullYear d) (monthIndex d + 1).

(** How many elements of a list carry the identifier of [t]. *)
Definition count_occ_by_id (t : Transaction) (l : list Transaction) : nat :=
  List.length (filter (fun u => String.eqb (id u) (id t)) l).



(** [n] clicks on the theme button. *)
Fixpoint toggleTimes (n : nat) (theme : string) : string :=
  match n with
  | O => theme
  | S n' => toggleTheme (toggleTimes n' theme)
  end.


(** * Properties *)

(** ** The runtime on samples *)

Example parseFloat_samples :
  parseFloatString "0.01" = Finite (1 # 100) /\
  parseFloatString "-5" = Finite (- (5 # 1)) /\
  parseFloatString "  12.5e1abc" = Finite 125 /\
  parseFloatString "5." = Finite 5 /\
  parseFloatString ".5" = Finite (5 # 10) /\
  parseFloatString "1e-2" = Finite (1 # 100) /\
  parseFloatString "abc" = NaN /\
  parseFloatString "" = NaN /\
  parseFloatString "." = NaN /\
  parseFloatString "-Infinity" = Infinity true.
Proof. repeat split; reflexivity. Qed.

Example toFixed_samples :
  toFixed (Finite (7 # 2)) 2 = "3.50" /\
  toFixed (Finite (- (1 # 1000))) 2 = "-0.00" /\
  toFixed (Finite (125 # 1000)) 2 = "0.13" /\
  toFixed (Finite (- (3 # 8))) 2 = "-0.38" /\
  toFixed (Finite 75) 2 = "75.00" /\
  toFixed NaN 2 = "NaN".
Proof. repeat split; reflexivity. Qed.

Example timeValue_samples :
  timeValue "1970-01-01" = Finite 0 /\
  timeValue "2024-01-05" = Finite (inject_Z 1704412800000) /\
  timeValue "2024-02-29" = Finite (inject_Z 1709164800000) /\
  timeValue "2023-02-29" = NaN /\
  timeValue "" = NaN /\
  localYearMonth "2024-01-05" = Some (2024, 0) /\
  localYearMonth "2024-1-5" = None.
Proof. repeat split; reflexivity. Qed.

(** ** Numbers *)

Lemma Qltb_lt (a b : Q) : Qltb a b = true <-> (a < b)%Q.
Proof.
  unfold Qltb. rewrite negb_true_iff. split.
  - intros H. apply Qnot_le_lt. intros Hle.
    apply Qle_bool_iff in Hle. congruence.
  - intros H. destruct (Qle_bool b a) eqn:E; [|reflexivity].
    apply Qle_bool_iff in E. exfalso. exact (Qlt_not_le _ _ H E).
Qed.

Lemma Qltb_ge (a b : Q) : Qltb a b = false <-> (b <= a)%Q.
Proof.
  unfold Qltb. rewrite negb_false_iff. apply Qle_bool_iff.
Qed.

Lemma truthyNumber_nonZero (n : Number) : truthyNumber n = true <-> nonZero n.
Proof.
  destruct n as [|b|q]; simpl.
  - split; [discriminate | tauto].
  - tauto.
  - rewrite negb_true_iff. split.
    + intros H Hq. apply Qeq_bool_iff in Hq. congruence.
    + intros H. destruct (Qeq_bool q 0) eqn:E; [|reflexivity].
      apply Qeq_bool_iff in E. tauto.
Qed.

Lemma gt_zero_truthy (v : Value) :
  gt (parseFloat v) zero = true -> truthy v = true.
Proof.
  destruct v as [s|n]; simpl.
  - destruct s; [discriminate | reflexivity].
  - destruct n as [|b|q]; simpl; try discriminate; try reflexivity.
    unfold gt; simpl. intros H. apply Qltb_lt in H.
    rewrite negb_true_iff.
    destruct (Qeq_bool q 0) eqn:E; [|reflexivity].
    apply Qeq_bool_iff in E. rewrite E in H.
    exfalso. exact (Qlt_irrefl _ H).
Qed.

Lemma gt_zero_not_le (n : Number) : gt n zero = true -> le n zero = false.
Proof.
  destruct n as [|b|q]; unfold gt; simpl; try discriminate.
  - destruct b; [discriminate | reflexivity].
  - intros H. apply Qltb_lt in H.
    destruct (Qle_bool q 0) eqn:E; [|reflexivity].
    apply Qle_bool_iff in E. exfalso. exact (Qlt_not_le _ _ H E).
Qed.

(** ** The validator *)

Lemma validate_missing_field (st : Form.State) :
  Form.text st = "" \/ Form.date st = "" ->
  validateCreateOrUpdate st = inl "Please fill out all fields.".
Proof.
  unfold validateCreateOrUpdate.
  intros [H|H]; rewrite H; simpl; [reflexivity|].
  now rewrite orb_true_r.
Qed.

Lemma validate_invalid_amount (st : Form.State) :
  truthyString (Form.text st) = true ->
  truthyString (Form.date st) = true ->
  truthy (Form.amount st) = false
    \/ le (parseFloat (Form.amount st)) zero = true ->
  validateCreateOrUpdate st = inl "Amount must be a positive number.".
Proof.
  unfold validateCreateOrUpdate. intros -> -> [H|H]; rewrite H; simpl.
  - reflexivity.
  - now rewrite orb_true_r.
Qed.

Lemma validate_accepts (st : Form.State) :
  truthyString (Form.text st) = true ->
  truthyString (Form.date st) = true ->
  gt (parseFloat (Form.amount st)) zero = true ->
  validateCreateOrUpdate st =
    inr {| text := Form.text st;
           amount :=
             match Form.transactionType st with
             | Expense => neg (Math_abs (parseFloat (Form.amount st)))
             | Income => Math_abs (parseFloat (Form.amount st))
             end;
           category := Form.category st;
           type := Form.transactionType st;
           date := Form.date st |}.
Proof.
  unfold validateCreateOrUpdate. intros -> -> H.
  rewrite (gt_zero_truthy _ H), (gt_zero_not_le _ H). reflexivity.
Qed.

Example validate_amount_samples :
  let submit a := validateCreateOrUpdate
                    (draft "Lunch" (VString a) "Food" Expense "2024-01-05") in
  submit "0" = inl "Amount must be a positive number." /\
  submit "-5" = inl "Amount must be a positive number." /\
  submit "" = inl "Amount must be a positive number." /\
  submit "0.01" =
    inr {| text := "Lunch"; amount := Finite (- (1 # 100));
           category := "Food"; type := Expense; date := "2024-01-05" |} /\
  validateCreateOrUpdate (draft "" (VString "0") "Food" Expense "2024-01-05")
    = inl "Please fill out all fields.".
Proof. repeat split; reflexivity. Qed.




(** A non-empty amount that does not parse passes the amount guard, since
    no comparison with NaN holds. *)
Lemma validate_unparsable (st : Form.State) :
  truthyString (Form.text st) = true ->
  truthyString (Form.date st) = true ->
  truthy (Form.amount st) = true ->
  parseFloat (Form.amount st) = NaN ->
  exists d, validateCreateOrUpdate st = inr d /\ amount d = NaN.
Proof.
  unfold validateCreateOrUpdate. intros -> -> -> ->. simpl.
  destruct (Form.transactionType st); eexists; split; reflexivity.
Qed.


(** The sign of a normalised amount, for an accepted draft whose amount
    does parse: negative exactly for an expense, and never zero. *)
Lemma normalized_sign (st : Form.State) (d : TransactionData) :
  validateCreateOrUpdate st = inr d ->
  parseFloat (Form.amount st) <> NaN ->
  (type d = Expense <-> lt (amount d) zero = true) /\ nonZero (amount d).
Proof.
  unfold validateCreateOrUpdate.
  destruct (_ || _); [discriminate|].
  destruct (negb (truthy (Form.amount st))); [discriminate|]. simpl.
  destruct (parseFloat (Form.amount st)) as [|b|q] eqn:E.
  - intros _ H. now contradiction H.
  - simpl. destruct b; [discriminate|]. intros [= <-] _. simpl.
    destruct (Form.transactionType st); simpl; split;
      try tauto; split; congruence.
  - simpl. destruct (Qle_bool q 0) eqn:Hq; [discriminate|].
    intros [= <-] _. simpl.
    assert (Hpos : (0 < q)%Q).
    { apply Qnot_le_lt. intros H. apply Qle_bool_iff in H. congruence. }
    assert (Habs : (0 < Qabs q)%Q).
    { rewrite Qabs_pos; [exact Hpos | apply Qlt_le_weak; exact Hpos]. }
    destruct (Form.transactionType st); simpl; split.
    + split; [intros _ | reflexivity]. apply Qltb_lt.
      apply (Qplus_lt_l _ _ (Qabs q)). ring_simplify. exact Habs.
    + intros H. apply (Qlt_irrefl 0).
      rewrite <- (Qopp_involutive (Qabs q)) in Habs.
      rewrite H in Habs. exact Habs.
    + split; [discriminate|]. intros H. apply Qltb_lt in H.
      exfalso. exact (Qlt_irrefl _ (Qlt_trans _ _ _ Habs H)).
    + intros H. rewrite H in Habs. exact (Qlt_irrefl _ Habs).
Qed.


(** ** The edit session *)

Lemma abs_abs_positive (a : Number) :
  nonZero a -> lt a zero = false -> Math_abs (Math_abs a) = a.
Proof.
  destruct a as [|b|[n d]]; simpl; try tauto.
  - destruct b; [discriminate | reflexivity].
  - intros _ H. apply Qltb_ge in H. unfold Qle in H; simpl in H.
    unfold Qabs. f_equal. f_equal. lia.
Qed.

Lemma neg_abs_abs_negative (a : Number) :
  lt a zero = true -> neg (Math_abs (Math_abs a)) = a.
Proof.
  destruct a as [|b|[n d]]; simpl; try discriminate.
  - destruct b; [reflexivity | discriminate].
  - intros H. apply Qltb_lt in H. unfold Qlt in H; simpl in H.
    unfold Qabs, Qopp; simpl. f_equal. f_equal. lia.
Qed.

Lemma abs_gt_zero (a : Number) : nonZero a -> gt (Math_abs a) zero = true.
Proof.
  destruct a as [|b|q]; unfold gt; simpl; try tauto.
  intros H. apply Qltb_lt.
  destruct (Qle_lt_or_eq _ _ (Qabs_nonneg q)) as [Hlt|Heq]; [exact Hlt|].
  exfalso. apply H.
  destruct (Qabs_Qle_condition q 0) as [Hc _].
  assert (Hle : (Qabs q <= 0)%Q) by (rewrite <- Heq; apply Qle_refl).
  destruct (Hc Hle) as [H1 H2]. apply Qle_antisym; assumption.
Qed.

Lemma truthyString_nonempty (s : string) : s <> "" -> truthyString s = true.
Proof. destruct s; [congruence | reflexivity]. Qed.

(** C10, as stated, fails: the income record [gift] with the amount 0 has
    the type expense exactly when its amount is below 0 (neither holds), but
    the draft that the edit loads has the amount 0, which the amount guard
    rejects; the unchanged submit issues no command. *)
Lemma edit_submit_zero_amount_counterexample :
  (type (data gift) = Expense <-> lt (amount (data gift)) zero = true)
  /\ handleAddOrUpdateTransaction reliableStore "2024-03-01"
       (handleEditTransaction gift emptyForm)
     = (Form.setFormError "Amount must be a positive number."
          (handleEditTransaction gift emptyForm), None, Normal).
Proof.
  split; [|reflexivity]. simpl. split; discriminate.
Qed.

(** C10, amended: editing a record and submitting the form unchanged
    writes the record back as it was, for a record that the validator lets
    through.  For every record with a non-empty identifier, text and date
    and an amount that is a number other than 0, whose type is expense
    exactly when its amount is below 0, the submit that follows
    [handleEditTransaction] issues an update of that record's identifier
    whose text, amount, category, type and date are those of the
    record. *)
Theorem edit_submit_round_trip (t : Transaction) (st : Form.State)
    (store : StoreCommand -> Settled) (today : string) :
  wellFormed t ->
  (type (data t) = Expense <-> lt (amount (data t)) zero = true) ->
  snd (fst (handleAddOrUpdateTransaction store today
              (handleEditTransaction t st)))
  = Some (updateDoc (id t) (data t)).
Proof.
  intros (Hid & Htext & Hdate & Hnz) Hsign.
  unfold handleAddOrUpdateTransaction.
  assert (E : validateCreateOrUpdate
                (Form.setFormError "" (handleEditTransaction t st))
              = inr (data t)).
  { change (validateCreateOrUpdate
              (Form.setFormError "" (handleEditTransaction t st)))
      with (validateCreateOrUpdate (handleEditTransaction t st)).
    rewrite validate_accepts;
      [| now apply truthyString_nonempty | now apply truthyString_nonempty
       | now apply abs_gt_zero ].
    simpl. f_equal. destruct (data t) as [tx am ca ty da]; simpl in *. f_equal.
    destruct ty.
    - apply neg_abs_abs_negative. now apply Hsign.
    - apply abs_abs_positive; [exact Hnz|].
      destruct (lt am zero) eqn:Hlt; [|reflexivity].
      destruct Hsign as [_ H]. now specialize (H eq_refl). }
  rewrite E.
  assert (Ei : editTarget (Form.setFormError "" (handleEditTransaction t st))
               = Some (id t)).
  { unfold editTarget; simpl. now rewrite truthyString_nonempty. }
  rewrite Ei. now destruct (store _).
Qed.

Lemma edit_submit_round_trip_witness :
  snd (fst (handleAddOrUpdateTransaction reliableStore "2024-03-01"
              (handleEditTransaction lunch emptyForm)))
  = Some (updateDoc "t1" (data lunch)).
Proof.
  apply (edit_submit_round_trip lunch emptyForm reliableStore "2024-03-01").
  - unfold wellFormed; simpl. repeat split; try discriminate.
  - simpl. split; reflexivity.
Defined.

(** ** The auth listener *)

(** C1, at a failing input: whatever user the auth service reports, the
    listener of [App] calls [setUser] and then ends with a ReferenceError
    that nothing catches, because [setLoading] is bound nowhere; [loading]
    keeps its value. *)
Theorem auth_listener_reference_error (currentUser : option string)
    (st : Shell.AppState) :
  Shell.authStateChanged currentUser st
  = ({| Shell.user := currentUser; Shell.loading := Shell.loading st |},
     Uncaught "ReferenceError: setLoading is not defined").
Proof. reflexivity. Qed.

(** The form handlers, in contrast, always end normally: a rejection by
    the store ends in [formError], or is dropped by the delete handler. *)
Lemma form_handlers_complete (store : StoreCommand -> Settled)
    (today target : string) (st : Form.State) :
  snd (handleAddOrUpdateTransaction store today st) = Normal
  /\ snd (handleDeleteTransaction store target) = Normal.
Proof.
  split.
  - unfold handleAddOrUpdateTransaction.
    destruct (validateCreateOrUpdate _); [reflexivity|].
    now destruct (store _).
  - unfold handleDeleteTransaction. now destruct (store _).
Qed.

(** ** Dates *)

Lemma list_ascii_of_string_app (s t : string) :
  list_ascii_of_string (s ++ t)
  = (list_ascii_of_string s ++ list_ascii_of_string t)%list.
Proof. induction s as [|c s IH]; simpl; [reflexivity | now rewrite IH]. Qed.





(** ** The snapshot order *)

Section ArraySortFacts.
Context {A : Type} (compare : A -> A -> Number).

Lemma insert_perm (x : A) (l : list A) :
  Permutation (x :: l) (insert compare x l).
Proof.
  induction l as [|y l IH]; cbn [insert]; [apply Permutation_refl|].
  destruct (gt (compare x y) zero); [|apply Permutation_refl].
  eapply perm_trans; [apply perm_swap|]. now apply perm_skip.
Qed.

Lemma Array_sort_perm (l : list A) : Permutation l (Array_sort compare l).
Proof.
  induction l as [|x l IH]; simpl; [apply perm_nil|].
  eapply perm_trans; [apply perm_skip, IH | apply insert_perm].
Qed.


End ArraySortFacts.



(** *** Time values and the calendar *)

Lemma daysInMonth_le_31 (y m : Z) : daysInMonth y m <= 31.
Proof.
  unfold daysInMonth. destruct (m =? 2); [destruct (isLeapYear y); lia|].
  destruct (_ || _); lia.
Qed.

Lemma daysFromCivil_year (y m d y' m' d' : Z) :
  1 <= m <= 12 -> 1 <= d <= 31 -> 1 <= m' <= 12 -> 1 <= d' <= 31 ->
  y < y' -> daysFromCivil y m d < daysFromCivil y' m' d'.
Proof.
  intros Hm Hd Hm' Hd' Hlt. unfold daysFromCivil. cbv zeta.
  destruct (Z.leb_spec m 2), (Z.leb_spec m' 2);
    Z.div_mod_to_equations; lia.
Qed.

Lemma daysFromCivil_month (y m d m' d' : Z) :
  1 <= m <= 12 -> 1 <= d <= daysInMonth y m -> 1 <= m' <= 12 -> 1 <= d' ->
  m < m' -> daysFromCivil y m d < daysFromCivil y m' d'.
Proof.
  intros Hm Hd Hm' Hd' Hlt.
  unfold daysFromCivil, daysInMonth, isLeapYear in *. cbv zeta.
  destruct (Z.leb_spec m 2), (Z.leb_spec m' 2);
    repeat match type of Hd with
           | context [?a =? ?b] => destruct (Z.eqb_spec a b)
           end;
    cbn [andb orb negb] in Hd;
    Z.div_mod_to_equations; lia.
Qed.

Lemma daysFromCivil_day (y m d d' : Z) :
  d <= d' -> daysFromCivil y m d <= daysFromCivil y m d'.
Proof. unfold daysFromCivil. cbv zeta. lia. Qed.

(** The day number orders the days of the calendar as the calendar does. *)
Lemma daysFromCivil_order (p q : Z * Z * Z) :
  calendarDay p -> calendarDay q ->
  (let '(y, m, d) := p in daysFromCivil y m d)
    <= (let '(y, m, d) := q in daysFromCivil y m d)
  -> notAfter p q.
Proof.
  destruct p as [[y m] d], q as [[y' m'] d']. unfold calendarDay, notAfter.
  intros [Hm Hd] [Hm' Hd'] Hle.
  pose proof (daysInMonth_le_31 y m). pose proof (daysInMonth_le_31 y' m').
  destruct (Z.lt_trichotomy y y') as [Hy|[Hy|Hy]]; [now left | | ].
  - subst y'. right. split; [reflexivity|].
    destruct (Z.lt_trichotomy m m') as [Hmm|[Hmm|Hmm]]; [now left | | ].
    + subst m'. right. split; [reflexivity|].
      destruct (Z.le_gt_cases d d') as [Hdd|Hdd]; [exact Hdd|].
      assert (daysFromCivil y m d' < daysFromCivil y m d)
        by (unfold daysFromCivil; cbv zeta; lia).
      lia.
    + assert (daysFromCivil y m' d' < daysFromCivil y m d)
        by (apply daysFromCivil_month; lia).
      lia.
  - assert (daysFromCivil y' m' d' < daysFromCivil y m d)
      by (apply daysFromCivil_year; lia).
    lia.
Qed.

Lemma parseDate_calendarDay (s : string) (p : Z * Z * Z) :
  parseDate s = Some p -> calendarDay p.
Proof.
  unfold parseDate. generalize (list_ascii_of_string s) as l. intros l.
  do 10 (destruct l as [|? l]; [discriminate|]).
  destruct l; [|discriminate]. unfold parseDateChars.
  destruct (_ && _); [|discriminate].
  match goal with
  | |- (if ?c then _ else _) = _ -> _ => destruct c eqn:E
  end; [|discriminate].
  intros [= <-]. unfold calendarDay.
  rewrite !andb_true_iff, !Z.leb_le in E. lia.
Qed.

(** *** Sortedness of the stable sort *)



Lemma filter_swap {A : Type} (p q : A -> bool) (l : list A) :
  filter p (filter q l) = filter q (filter p l).
Proof.
  induction l as [|a l IH]; [reflexivity|]. simpl.
  destruct (p a) eqn:Hp, (q a) eqn:Hq; simpl; rewrite ?Hp, ?Hq, IH;
    reflexivity.
Qed.

Lemma filter_perm {A : Type} (p : A -> bool) (l l' : list A) :
  Permutation l l' -> Permutation (filter p l) (filter p l').
Proof.
  induction 1 as [|a l l' _ IH|a b l|l l' l'' _ IH1 _ IH2]; simpl.
  - apply perm_nil.
  - destruct (p a); [apply perm_skip|]; exact IH.
  - destruct (p a), (p b); try apply Permutation_refl. apply perm_swap.
  - eapply perm_trans; eassumption.
Qed.

Section SortedByKey.
Context {A : Type} (compare : A -> A -> Number) (key : A -> Z)
        (ok : A -> Prop).
Hypothesis compare_key :
  forall x y, ok x -> ok y -> gt (compare x y) zero = (key x <? key y).

Lemma insert_sorted (x : A) (l : list A) :
  ok x -> Forall ok l ->
  StronglySorted (orderedBy key ok) l ->
  StronglySorted (orderedBy key ok) (insert compare x l).
Proof.
  intros Hx Hl Hs. induction Hs as [|y l Hs IH Hf]; cbn [insert].
  - repeat constructor.
  - inversion Hl as [|? ? Hy Hl']; subst.
    rewrite (compare_key x y Hx Hy). destruct (Z.ltb_spec (key x) (key y)).
    + constructor; [now apply IH|].
      eapply Permutation_Forall; [apply insert_perm|].
      constructor; [|exact Hf]. unfold orderedBy. repeat split; auto. lia.
    + constructor; [now constructor|].
      constructor; [unfold orderedBy; auto|].
      eapply Forall_impl; [|exact Hf].
      unfold orderedBy. intros b (_ & Hb & Hle). repeat split; auto. lia.
Qed.

Lemma Array_sort_sorted (l : list A) :
  Forall ok l -> StronglySorted (orderedBy key ok) (Array_sort compare l).
Proof.
  induction 1 as [|x l Hx Hl IH]; simpl; [constructor|].
  apply insert_sorted; [exact Hx | | exact IH].
  eapply Permutation_Forall; [apply Array_sort_perm | exact Hl].
Qed.
End SortedByKey.

Lemma byDateDescending_key (a b : Transaction) :
  hasCalendarDate a -> hasCalendarDate b ->
  gt (byDateDescending a b) zero = (dayNumber a <? dayNumber b).
Proof.
  unfold hasCalendarDate, byDateDescending, dayNumber, timeValue.
  destruct (parseDate (date (data a))) as [[[ya ma] da]|]; [|congruence].
  destruct (parseDate (date (data b))) as [[[yb mb] db]|]; [|congruence].
  intros _ _. unfold gt; simpl.
  set (na := daysFromCivil ya ma da). set (nb := daysFromCivil yb mb db).
  unfold Qltb, Qle_bool, msPerDay; simpl.
  rewrite !Z.mul_1_r.
  destruct (Z.leb_spec (nb * 86400000 + - (na * 86400000)) 0),
    (Z.ltb_spec na nb); simpl; try reflexivity; lia.
Qed.




(** ** Sums *)

Lemma Qltb_comp (a a' b b' : Q) :
  (a == a')%Q -> (b == b')%Q -> Qltb a b = Qltb a' b'.
Proof.
  intros Ha Hb. destruct (Qltb a' b') eqn:E.
  - apply Qltb_lt. rewrite Ha, Hb. now apply Qltb_lt.
  - apply Qltb_ge. rewrite Ha, Hb. now apply Qltb_ge.
Qed.

Lemma roundScaled_comp (a b : Q) (f : nat) :
  (a == b)%Q -> roundScaled a f = roundScaled b f.
Proof. intros H. unfold roundScaled. now rewrite H. Qed.

(** [toFixed] depends only on the value of the rational. *)
Lemma toFixed_comp (a b : Q) (f : nat) :
  (a == b)%Q -> toFixed (Finite a) f = toFixed (Finite b) f.
Proof.
  intros H. unfold toFixed.
  now rewrite (roundScaled_comp a b f H), (Qltb_comp a b 0 0 H (Qeq_refl 0)).
Qed.

Lemma fold_left_Qplus (l : list Q) (a : Q) :
  (fold_left Qplus l a == a + sumQ l)%Q.
Proof.
  revert a. induction l as [|x l IH]; intros a; simpl.
  - ring.
  - rewrite IH. ring.
Qed.

Lemma sum_finite (qs : list Q) :
  sum (map Finite qs) = Finite (fold_left Qplus qs 0%Q).
Proof.
  unfold sum, zero. generalize 0%Q as a.
  induction qs as [|x qs IH]; intros a; simpl; [reflexivity | apply IH].
Qed.

Lemma amounts_finite (ts : list Transaction) :
  Forall finiteAmount ts ->
  map (fun t => amount (data t)) ts = map Finite (map amountQ ts).
Proof.
  induction 1 as [|t ts [q Hq] _ IH]; simpl; [reflexivity|].
  unfold amountQ at 1. rewrite Hq, IH. reflexivity.
Qed.

Lemma filter_map_Finite (p : Number -> bool) (qs : list Q) :
  filter p (map Finite qs) = map Finite (filter (fun q => p (Finite q)) qs).
Proof.
  induction qs as [|x qs IH]; simpl; [reflexivity|].
  destruct (p (Finite x)); simpl; now rewrite IH.
Qed.


Lemma sumQ_negative (qs : list Q) :
  (sumQ (filter (fun q => Qltb q 0) qs) <= 0)%Q.
Proof.
  induction qs as [|x qs IH]; simpl; [apply Qle_refl|].
  destruct (Qltb x 0) eqn:Hn; [|exact IH]. simpl.
  apply Qltb_lt in Hn. lra.
Qed.


Lemma roundScaled_nonneg (q : Q) : 0 <= roundScaled q 2.
Proof.
  unfold roundScaled. change (inject_Z (10 ^ Z.of_nat 2)) with 100%Q.
  change 0 with (Qfloor 0). apply Qfloor_resp_le.
  pose proof (Qabs_nonneg q). lra.
Qed.

(** The string of [toFixed] is the decimal writing of [hundredths]. *)
Lemma toFixed_hundredths (q : Q) :
  toFixed (Finite q) 2
  = ((if Qltb q 0 then "-" else "")
       ++ digits (Z.abs (hundredths q) / 100) ++ "."
       ++ padStart 2 (digits (Z.abs (hundredths q) mod 100)))%string.
Proof.
  pose proof (roundScaled_nonneg q) as H.
  unfold toFixed, hundredths. change (10 ^ Z.of_nat 2) with 100.
  destruct (Qltb q 0).
  - now rewrite Z.abs_opp, Z.abs_eq.
  - now rewrite Z.abs_eq.
Qed.


(** ** The summary *)



(** ** The category breakdown *)

Example scenario_january_breakdown :
  expenseData (monthlyTransactions (onSnapshot scenario) 2024 0)
  = [("Food", Finite 20)]
  /\ expenseData scenario = [("Food", Finite 25)].
Proof. split; reflexivity. Qed.



















Lemma get_keys (o : JsObject) (k : string) :
  get o k <> None <-> In k (Object_keys o).
Proof.
  induction o as [|[k' v] o IH]; simpl.
  - intuition congruence.
  - destruct (String.eqb_spec k' k) as [->|Hk].
    + intuition congruence.
    + rewrite IH. intuition congruence.
Qed.



(** * Further properties *)

(** ** The submit handler and the edit session *)

(** X1: a submit that ends with a message on the form has changed nothing
    else on it: the draft and the edit session are as they were. *)
Theorem submit_error_keeps_draft (store : StoreCommand -> Settled)
    (today : string) (st : Form.State) :
  let st' := fst (fst (handleAddOrUpdateTransaction store today st)) in
  Form.formError st' <> "" ->
  Form.text st' = Form.text st /\ Form.amount st' = Form.amount st
  /\ Form.category st' = Form.category st
  /\ Form.transactionType st' = Form.transactionType st
  /\ Form.date st' = Form.date st /\ Form.editingId st' = Form.editingId st.
Proof.
  unfold handleAddOrUpdateTransaction.
  destruct (validateCreateOrUpdate _) as [msg|d]; simpl.
  - intros _. repeat split.
  - destruct (store _); simpl.
    + intros H. now contradiction H.
    + intros _. repeat split.
Qed.

Lemma submit_error_keeps_draft_witness :
  Form.text
    (fst (fst (handleAddOrUpdateTransaction reliableStore "2024-03-01"
                 (draft "Lunch" (VString "0") "Bills" Income "2024-01-05"))))
  = "Lunch".
Proof.
  apply (submit_error_keeps_draft reliableStore "2024-03-01"
           (draft "Lunch" (VString "0") "Bills" Income "2024-01-05")).
  simpl. discriminate.
Defined.

(** X2: a submit that ends without a message was accepted by the validator
    and by the store; the form is then the empty form of the day, with the
    type expense and the category [Food], and no edit session is left. *)
Theorem submit_success_resets (store : StoreCommand -> Settled)
    (today : string) (st : Form.State) :
  let result := handleAddOrUpdateTransaction store today st in
  let st' := fst (fst result) in
  Form.formError st' = "" ->
  (exists d cmd, validateCreateOrUpdate st = inr d
                 /\ snd (fst result) = Some cmd /\ store cmd = Fulfilled
                 /\ (cmd = addDoc d \/ exists i, cmd = updateDoc i d))
  /\ Form.text st' = "" /\ Form.amount st' = VString ""
  /\ Form.category st' = "Food" /\ Form.transactionType st' = Expense
  /\ Form.date st' = today /\ editTarget st' = None.
Proof.
  unfold handleAddOrUpdateTransaction.
  change (validateCreateOrUpdate (Form.setFormError "" st))
    with (validateCreateOrUpdate st).
  destruct (validateCreateOrUpdate st) as [msg|d] eqn:Ev.
  - simpl. intros H. exfalso. revert Ev. unfold validateCreateOrUpdate.
    destruct (_ || _); [intros [= <-]; discriminate|].
    destruct (_ || _); [intros [= <-]; discriminate|]. discriminate.
  - destruct (editTarget (Form.setFormError "" st)) as [i|] eqn:Et;
      match goal with |- context [store ?c] => destruct (store c) eqn:Es end;
      simpl; try discriminate; intros _; (split; [|repeat split]).
    + exists d, (updateDoc i d). repeat split; eauto.
    + exists d, (addDoc d). repeat split; eauto.
    + unfold editTarget in *. simpl in *. exact Et.
Qed.

Lemma submit_success_resets_witness :
  Form.category
    (fst (fst (handleAddOrUpdateTransaction reliableStore "2024-03-01"
                 (draft "Rent" (VString "700") "Bills" Expense "2024-01-05"))))
  = "Food".
Proof.
  apply (submit_success_resets reliableStore "2024-03-01"
           (draft "Rent" (VString "700") "Bills" Expense "2024-01-05")).
  reflexivity.
Defined.

(** X3: Cancel Edit ends the edit session but leaves the type and the
    category of the record that was being edited in the form: the next
    transaction typed in is added, not updated, with that type, that
    category and the date of the day. *)
Theorem cancel_then_submit_adds (t : Transaction) (st0 : Form.State)
    (today today' txt amt : string) (store : StoreCommand -> Settled) :
  txt <> "" -> today <> "" -> gt (parseFloatString amt) zero = true ->
  snd (fst (handleAddOrUpdateTransaction store today'
              (setAmount amt
                 (setText txt
                    (cancelEdit today (handleEditTransaction t st0))))))
  = Some (addDoc {| text := txt;
                    amount :=
                      match type (data t) with
                      | Expense => neg (Math_abs (parseFloatString amt))
                      | Income => Math_abs (parseFloatString amt)
                      end;
                    category := category (data t);
                    type := type (data t);
                    date := today |}).
Proof.
  intros Htxt Htoday Hamt. unfold handleAddOrUpdateTransaction.
  set (st := setAmount amt _).
  change (validateCreateOrUpdate (Form.setFormError "" st))
    with (validateCreateOrUpdate st).
  rewrite validate_accepts;
    [| now apply truthyString_nonempty | now apply truthyString_nonempty
     | exact Hamt ].
  simpl. now destruct (store _).
Qed.

Lemma cancel_then_submit_adds_witness :
  snd (fst (handleAddOrUpdateTransaction reliableStore "2024-03-02"
              (setAmount "12.5"
                 (setText "Bonus"
                    (cancelEdit "2024-03-01"
                       (handleEditTransaction salary emptyForm))))))
  = Some (addDoc {| text := "Bonus"; amount := Finite (125 # 10);
                    category := "Salary"; type := Income;
                    date := "2024-03-01" |}).
Proof.
  apply (cancel_then_submit_adds salary emptyForm "2024-03-01" "2024-03-02"
           "Bonus" "12.5" reliableStore);
    [discriminate | discriminate | reflexivity].
Defined.

(** X4: the Income button does not touch the category.  When the form
    holds an expense category other than [Other] and the type is switched
    to income, a valid submit stores an income record whose category is not
    an income category. *)
Theorem type_switch_keeps_category (st : Form.State)
    (store : StoreCommand -> Settled) (today : string) :
  truthyString (Form.text st) = true ->
  truthyString (Form.date st) = true ->
  gt (parseFloat (Form.amount st)) zero = true ->
  In (Form.category st) expenseCategories ->
  Form.category st <> "Other" ->
  exists d cmd,
    snd (fst (handleAddOrUpdateTransaction store today
                (setTransactionType Income st))) = Some cmd
    /\ (cmd = addDoc d \/ exists i, cmd = updateDoc i d)
    /\ type d = Income /\ category d = Form.category st
    /\ ~ In (category d) (categoriesFor (type d)).
Proof.
  intros Ht Hd Ha Hin Hother. unfold handleAddOrUpdateTransaction.
  set (st1 := setTransactionType Income st).
  change (validateCreateOrUpdate (Form.setFormError "" st1))
    with (validateCreateOrUpdate st1).
  rewrite (validate_accepts st1 Ht Hd Ha).
  eexists. destruct (editTarget (Form.setFormError "" st1)) as [i|];
    match goal with |- context [store ?c] => destruct (store c) end;
    simpl; eexists; (split; [reflexivity|]); (split; [eauto|]);
    repeat split; simpl in *; intuition (subst; try discriminate; congruence).
Qed.

Lemma type_switch_keeps_category_witness :
  exists d cmd,
    snd (fst (handleAddOrUpdateTransaction reliableStore "2024-03-01"
                (setTransactionType Income
                   (setAmount "100" (setText "Wages"
                                       (initialForm "2024-03-01"))))))
    = Some cmd
    /\ (cmd = addDoc d \/ exists i, cmd = updateDoc i d)
    /\ type d = Income /\ category d = "Food"
    /\ ~ In (category d) (categoriesFor (type d)).
Proof.
  apply (type_switch_keeps_category
           (setAmount "100" (setText "Wages" (initialForm "2024-03-01")))
           reliableStore "2024-03-01");
    try reflexivity.
  - simpl. tauto.
  - discriminate.
Defined.

(** X5: what the validator lets into the store.  The text and the date of
    an accepted draft are not empty, and its amount is either NaN (the
    amount did not parse) or a number other than 0 that is below 0 exactly
    for an expense. *)
Theorem accepted_command_shape (st : Form.State) (d : TransactionData) :
  validateCreateOrUpdate st = inr d ->
  text d <> "" /\ date d <> ""
  /\ (amount d = NaN
      \/ (nonZero (amount d)
          /\ (type d = Expense <-> lt (amount d) zero = true))).
Proof.
  intros H.
  destruct (parseFloat (Form.amount st)) as [|b|q] eqn:Ep.
  - revert H. unfold validateCreateOrUpdate.
    destruct (Form.text st), (Form.date st); simpl; try discriminate.
    destruct (negb (truthy (Form.amount st))); simpl; [discriminate|].
    rewrite Ep. simpl. intros [= <-]. simpl. repeat split; try discriminate.
    left. now destruct (Form.transactionType st).
  - assert (Hn : parseFloat (Form.amount st) <> NaN) by congruence.
    destruct (normalized_sign st d H Hn) as [Hs Hz].
    revert H. unfold validateCreateOrUpdate.
    destruct (Form.text st), (Form.date st); simpl; try discriminate.
    destruct (_ || _); [discriminate|]. intros [= <-]. simpl in *.
    repeat split; try discriminate. right. tauto.
  - assert (Hn : parseFloat (Form.amount st) <> NaN) by congruence.
    destruct (normalized_sign st d H Hn) as [Hs Hz].
    revert H. unfold validateCreateOrUpdate.
    destruct (Form.text st), (Form.date st); simpl; try discriminate.
    destruct (_ || _); [discriminate|]. intros [= <-]. simpl in *.
    repeat split; try discriminate. right. tauto.
Qed.

Lemma accepted_command_shape_witness :
  text {| text := "Lunch"; amount := Finite (- (1 # 100));
          category := "Food"; type := Expense; date := "2024-01-05" |}
  <> "".
Proof.
  apply (accepted_command_shape
           (draft "Lunch" (VString "0.01") "Food" Expense "2024-01-05")).
  reflexivity.
Defined.

(** ** The default date *)




(** ** The months *)



(** ** The comparator of the snapshot sort *)

Lemma notAfter_dayNumber (p q : Z * Z * Z) :
  calendarDay p -> calendarDay q ->
  (notAfter p q
   <-> (let '(y, m, d) := p in daysFromCivil y m d)
       <= (let '(y, m, d) := q in daysFromCivil y m d)).
Proof.
  intros Hp Hq. split; [|now apply daysFromCivil_order].
  destruct p as [[y m] d], q as [[y' m'] d']. unfold calendarDay in *.
  pose proof (daysInMonth_le_31 y m). pose proof (daysInMonth_le_31 y' m').
  intros [Hy|[-> [Hm|[-> Hd]]]].
  - apply Z.lt_le_incl, daysFromCivil_year; lia.
  - apply Z.lt_le_incl, daysFromCivil_month; lia.
  - now apply daysFromCivil_day.
Qed.

Lemma byDateDescending_lt (a b : Transaction) :
  hasCalendarDate a -> hasCalendarDate b ->
  lt (byDateDescending a b) zero = (dayNumber b <? dayNumber a).
Proof.
  unfold hasCalendarDate, byDateDescending, dayNumber, timeValue.
  destruct (parseDate (date (data a))) as [[[ya ma] da]|]; [|congruence].
  destruct (parseDate (date (data b))) as [[[yb mb] db]|]; [|congruence].
  intros _ _. simpl.
  set (na := daysFromCivil ya ma da). set (nb := daysFromCivil yb mb db).
  unfold Qltb, Qle_bool, msPerDay; simpl.
  rewrite !Z.mul_1_r.
  destruct (Z.leb_spec 0 (nb * 86400000 + - (na * 86400000))),
    (Z.ltb_spec nb na); simpl; try reflexivity; lia.
Qed.

(** X8: what the comparator of the sort says for two records with calendar
    dates: it is above 0, so that the first record moves behind the second,
    exactly when the first is dated strictly earlier; below 0 exactly when
    it is dated strictly later; and neither for two records of one day. *)
Theorem byDateDescending_sign (a b : Transaction) (p q : Z * Z * Z) :
  parseDate (date (data a)) = Some p ->
  parseDate (date (data b)) = Some q ->
  (gt (byDateDescending a b) zero = true <-> ~ notAfter q p)
  /\ (lt (byDateDescending a b) zero = true <-> ~ notAfter p q)
  /\ (p = q -> gt (byDateDescending a b) zero = false
               /\ lt (byDateDescending a b) zero = false).
Proof.
  intros Ha Hb.
  assert (Hca : hasCalendarDate a) by (unfold hasCalendarDate; congruence).
  assert (Hcb : hasCalendarDate b) by (unfold hasCalendarDate; congruence).
  pose proof (parseDate_calendarDay _ _ Ha) as Hp.
  pose proof (parseDate_calendarDay _ _ Hb) as Hq.
  rewrite (byDateDescending_key a b Hca Hcb),
    (byDateDescending_lt a b Hca Hcb).
  rewrite (notAfter_dayNumber q p Hq Hp), (notAfter_dayNumber p q Hp Hq).
  unfold dayNumber. rewrite Ha, Hb.
  destruct p as [[y m] d], q as [[y' m'] d'].
  rewrite !Z.ltb_lt. repeat split; try lia.
  - injection H as -> -> ->. apply Z.ltb_irrefl.
  - injection H as -> -> ->. apply Z.ltb_irrefl.
Qed.

Lemma byDateDescending_sign_witness :
  gt (byDateDescending lunch salary) zero = true.
Proof.
  destruct (byDateDescending_sign lunch salary (2024, 1, 5) (2024, 1, 10)
              eq_refl eq_refl) as [H _].
  apply H. unfold notAfter. lia.
Defined.

(** ** The month navigation *)

Lemma daysInMonth_ge_28 (y m : Z) : 28 <= daysInMonth y m.
Proof.
  unfold daysInMonth. destruct (m =? 2); [destruct (isLeapYear y); lia|].
  destruct (_ || _); lia.
Qed.

Lemma daysFromCivil_next_month (y m : Z) :
  1 <= m <= 11 ->
  daysFromCivil y (m + 1) 1 = daysFromCivil y m (daysInMonth y m) + 1.
Proof.
  intros Hm. unfold daysFromCivil, daysInMonth, isLeapYear. cbv zeta.
  destruct (Z.leb_spec m 2), (Z.leb_spec (m + 1) 2);
    repeat match goal with
           | |- context [?a =? ?b] => destruct (Z.eqb_spec a b)
           end;
    cbn [andb orb negb];
    Z.div_mod_to_equations; lia.
Qed.


(** X9: the month navigation lands on a day of the calendar, the day that
    comes [dayOfMonth - 1] days after the first of the month asked for. *)
Theorem handleMonthChange_day (offset : Z) (current : LocalDate) :
  validLocalDate current ->
  let target := monthIndex current + offset in
  let next := handleMonthChange offset current in
  validLocalDate next
  /\ daysFromCivil (fullYear next) (monthIndex next + 1) (dayOfMonth next)
     = daysFromCivil (fullYear current + target / 12) (target mod 12 + 1) 1
       + (dayOfMonth current - 1).
Proof.
  intros [Hm Hd] target next. subst next. unfold handleMonthChange, setMonth.
  fold target. set (y := fullYear current + target / 12).
  set (m := target mod 12).
  assert (Hm' : 0 <= m < 12) by (apply Z.mod_pos_bound; lia).
  pose proof (daysInMonth_le_31 (fullYear current) (monthIndex current + 1)).
  pose proof (daysInMonth_ge_28 y (m + 1)) as Hlo.
  pose proof (daysInMonth_le_31 y (m + 1)) as Hhi.
  destruct (Z.leb_spec (dayOfMonth current) (daysInMonth y (m + 1))).
  - simpl. split; [unfold validLocalDate; simpl; lia|].
    unfold daysFromCivil. cbv zeta. lia.
  - destruct (Z.eqb_spec m 11) as [E|E].
    + exfalso. rewrite E in *. change (daysInMonth y (11 + 1)) with 31 in *.
      lia.
    + simpl. pose proof (daysInMonth_ge_28 y (m + 1 + 1)).
      split; [unfold validLocalDate; simpl; lia|].
      assert (Hn : daysFromCivil y (m + 1 + 1) 1
                   = daysFromCivil y (m + 1) (daysInMonth y (m + 1)) + 1)
        by (apply daysFromCivil_next_month; lia).
      revert Hn. generalize (daysInMonth y (m + 1)) as len.
      intros len. unfold daysFromCivil. cbv zeta. lia.
Qed.

Lemma handleMonthChange_day_witness :
  validLocalDate
    (handleMonthChange 1
       {| fullYear := 2023; monthIndex := 0; dayOfMonth := 31 |}).
Proof.
  apply (handleMonthChange_day 1
           {| fullYear := 2023; monthIndex := 0; dayOfMonth := 31 |}).
  unfold validLocalDate. simpl. change (daysInMonth 2023 1) with 31. lia.
Defined.

(** X10: from a day that every month has (the 28th at most), the
    navigation moves by exactly [offset] months and keeps the day, and
    going back by the same number of months returns to the date. *)
Theorem handleMonthChange_exact (offset : Z) (current : LocalDate) :
  validLocalDate current -> dayOfMonth current <= 28 ->
  let next := handleMonthChange offset current in
  12 * fullYear next + monthIndex next
  = 12 * fullYear current + monthIndex current + offset
  /\ dayOfMonth next = dayOfMonth current
  /\ handleMonthChange (- offset) next = current.
Proof.
  intros [Hm Hd] H28.
  assert (Hstep : forall off c,
             0 <= monthIndex c <= 11 -> dayOfMonth c <= 28 ->
             handleMonthChange off c
             = {| fullYear := fullYear c + (monthIndex c + off) / 12;
                  monthIndex := (monthIndex c + off) mod 12;
                  dayOfMonth := dayOfMonth c |}).
  { intros off c Hc Hc28. unfold handleMonthChange, setMonth.
    pose proof (daysInMonth_ge_28
                  (fullYear c + (monthIndex c + off) / 12)
                  ((monthIndex c + off) mod 12 + 1)).
    destruct (Z.leb_spec (dayOfMonth c)
                (daysInMonth (fullYear c + (monthIndex c + off) / 12)
                             ((monthIndex c + off) mod 12 + 1)));
      [reflexivity | lia]. }
  intros next. subst next. rewrite (Hstep offset current Hm H28).
  cbn [fullYear monthIndex dayOfMonth].
  assert (Hb : 0 <= (monthIndex current + offset) mod 12 < 12)
    by (apply Z.mod_pos_bound; lia).
  repeat split.
  - Z.div_mod_to_equations. lia.
  - rewrite Hstep; cbn [fullYear monthIndex dayOfMonth]; [|lia|exact H28].
    destruct current as [cy cm cd]. cbn [fullYear monthIndex dayOfMonth] in *.
    f_equal; Z.div_mod_to_equations; lia.
Qed.

Lemma handleMonthChange_exact_witness :
  handleMonthChange (- (3))
    (handleMonthChange 3
       {| fullYear := 2023; monthIndex := 10; dayOfMonth := 15 |})
  = {| fullYear := 2023; monthIndex := 10; dayOfMonth := 15 |}.
Proof.
  apply (handleMonthChange_exact 3
           {| fullYear := 2023; monthIndex := 10; dayOfMonth := 15 |}).
  - unfold validLocalDate. simpl. change (daysInMonth 2023 11) with 30. lia.
  - simpl. lia.
Defined.

(** X11: from a day that the month asked for does not have, the navigation
    skips that month: it lands in the month after it, so the records of the
    month asked for are not the ones listed. *)
Theorem handleMonthChange_skips (offset : Z) (current : LocalDate) :
  validLocalDate current ->
  let target := monthIndex current + offset in
  daysInMonth (fullYear current + target / 12) (target mod 12 + 1)
    < dayOfMonth current ->
  let next := handleMonthChange offset current in
  12 * fullYear next + monthIndex next
  = 12 * fullYear current + monthIndex current + offset + 1
  /\ (forall ts flt,
        records (ExpenseTracker ts flt (fullYear next) (monthIndex next))
        = filteredTransactions ts flt (fullYear current + (target + 1) / 12)
                               ((target + 1) mod 12)).
Proof.
  intros [Hm Hd] target Hlt next. subst next.
  unfold handleMonthChange, setMonth. fold target.
  set (y := fullYear current + target / 12) in *.
  set (m := target mod 12) in *.
  assert (Hm' : 0 <= m < 12) by (apply Z.mod_pos_bound; lia).
  pose proof (daysInMonth_le_31 (fullYear current) (monthIndex current + 1)).
  destruct (Z.leb_spec (dayOfMonth current) (daysInMonth y (m + 1)));
    [lia|].
  destruct (Z.eqb_spec m 11) as [E|E].
  - exfalso. rewrite E in *. change (daysInMonth y (11 + 1)) with 31 in *.
    lia.
  - cbn [fullYear monthIndex dayOfMonth].
    assert (Hdiv : (target + 1) / 12 = target / 12
                   /\ (target + 1) mod 12 = m + 1)
      by (subst m; Z.div_mod_to_equations; lia).
    destruct Hdiv as [Hq Hr]. split.
    + subst y m. Z.div_mod_to_equations. lia.
    + intros ts flt. simpl. unfold y. now rewrite Hq, Hr.
Qed.

Lemma handleMonthChange_skips_witness :
  12 * fullYear (handleMonthChange 1
                   {| fullYear := 2023; monthIndex := 0; dayOfMonth := 31 |})
  + monthIndex (handleMonthChange 1
                  {| fullYear := 2023; monthIndex := 0; dayOfMonth := 31 |})
  = 12 * 2023 + 0 + 1 + 1.
Proof.
  apply (handleMonthChange_skips 1
           {| fullYear := 2023; monthIndex := 0; dayOfMonth := 31 |}).
  - unfold validLocalDate. simpl. change (daysInMonth 2023 1) with 31. lia.
  - simpl. change (daysInMonth 2023 2) with 28. lia.
Defined.

(** ** The snapshot listener *)

(** X12: the listener keeps every document of the snapshot exactly once,
    whatever the dates are, parseable or not. *)
Theorem onSnapshot_keeps_documents (docs : list Transaction) :
  Permutation docs (onSnapshot docs)
  /\ List.length (onSnapshot docs) = List.length docs
  /\ (forall t, count_occ_by_id t (onSnapshot docs) = count_occ_by_id t docs).
Proof.
  assert (H : Permutation docs (onSnapshot docs)) by apply Array_sort_perm.
  repeat split.
  - exact H.
  - symmetry. now apply Permutation_length.
  - intros t. unfold count_occ_by_id. symmetry.
    apply Permutation_length, filter_perm, H.
Qed.

Section SortedInput.
Context {A : Type} (compare : A -> A -> Number) (key : A -> Z)
        (ok : A -> Prop).
Hypothesis compare_key :
  forall x y, ok x -> ok y -> gt (compare x y) zero = (key x <? key y).

Lemma insert_front (x : A) (l : list A) :
  Forall (orderedBy key ok x) l -> insert compare x l = x :: l.
Proof.
  intros H. destruct l as [|y l]; [reflexivity|]. cbn [insert].
  inversion H as [|? ? (Hx & Hy & Hle) _]; subst.
  rewrite (compare_key x y Hx Hy).
  destruct (Z.ltb_spec (key x) (key y)); [lia | reflexivity].
Qed.

Lemma Array_sort_sorted_input (l : list A) :
  StronglySorted (orderedBy key ok) l -> Array_sort compare l = l.
Proof.
  induction 1 as [|x l Hs IH Hf]; [reflexivity|].
  cbn [Array_sort fold_right]. fold (Array_sort compare l).
  rewrite IH. now apply insert_front.
Qed.
End SortedInput.

(** X13: a snapshot of records with calendar dates that is already in the
    order of the list is left as it is; in particular sorting twice gives
    what sorting once gives. *)
Theorem onSnapshot_idempotent (docs : list Transaction) :
  (forall t, In t docs -> hasCalendarDate t) ->
  (StronglySorted (orderedBy dayNumber hasCalendarDate) docs ->
   onSnapshot docs = docs)
  /\ onSnapshot (onSnapshot docs) = onSnapshot docs.
Proof.
  intros Hdocs.
  assert (Hfix : forall l,
             StronglySorted (orderedBy dayNumber hasCalendarDate) l ->
             onSnapshot l = l).
  { intros l. apply Array_sort_sorted_input, byDateDescending_key. }
  split; [apply Hfix|]. apply Hfix.
  apply (Array_sort_sorted byDateDescending dayNumber hasCalendarDate).
  - apply byDateDescending_key.
  - now apply Forall_forall.
Qed.

Lemma onSnapshot_idempotent_witness :
  onSnapshot (onSnapshot scenario) = onSnapshot scenario.
Proof.
  apply (onSnapshot_idempotent scenario).
  intros t Ht. simpl in Ht.
  destruct Ht as [<-|[<-|[<-|[]]]]; discriminate.
Defined.

(** ** Decimal strings *)

Lemma digit_head (c : ascii) (r : list ascii) :
  isDigit c = true ->
  trimStart (c :: r) = c :: r
  /\ parseSign (c :: r) = (false, c :: r)
  /\ startsWith (list_ascii_of_string "Infinity") (c :: r) = false.
Proof.
  destruct c as [[] [] [] [] [] [] [] []]; intros H;
    try discriminate H; repeat split.
Qed.

Lemma spanDigits_app (ds r : list ascii) :
  allDigits ds = true ->
  match r with [] => True | c :: _ => isDigit c = false end ->
  spanDigits (ds ++ r) = (ds, r).
Proof.
  intros Hds Hr. unfold allDigits in Hds.
  induction ds as [|c ds IH]; cbn [app spanDigits forallb] in *.
  - destruct r as [|c r]; [reflexivity|]. cbn [spanDigits]. now rewrite Hr.
  - apply andb_true_iff in Hds. destruct Hds as [Hc Hds].
    rewrite Hc, (IH Hds). reflexivity.
Qed.

Lemma fold_digits (ds : list ascii) (acc : Z) :
  fold_left (fun a c => 10 * a + digitValue c) ds acc
  = acc * 10 ^ Z.of_nat (List.length ds) + digitsValue ds.
Proof.
  unfold digitsValue. revert acc.
  induction ds as [|c ds IH]; intros acc.
  - simpl. lia.
  - cbn [fold_left List.length]. rewrite IH, (IH (10 * 0 + digitValue c)).
    rewrite Nat2Z.inj_succ, Z.pow_succ_r by lia. ring.
Qed.

Lemma digitsValue_app (a b : list ascii) :
  digitsValue (a ++ b)
  = digitsValue a * 10 ^ Z.of_nat (List.length b) + digitsValue b.
Proof.
  unfold digitsValue at 1. rewrite fold_left_app.
  fold (digitsValue a). apply fold_digits.
Qed.

(** The characters of the decimal writing of a number. *)
Lemma uint_allDigits (d : Decimal.uint) :
  allDigits (list_ascii_of_string (NilEmpty.string_of_uint d)) = true.
Proof. induction d; simpl; auto. Qed.

Lemma uint_value_acc (d : Decimal.uint) (acc : positive) :
  fold_left (fun a c => 10 * a + digitValue c)
            (list_ascii_of_string (NilEmpty.string_of_uint d)) (Z.pos acc)
  = Z.pos (Pos.of_uint_acc d acc).
Proof.
  revert acc. induction d; intros acc;
    cbn [NilEmpty.string_of_uint list_ascii_of_string fold_left
         Pos.of_uint_acc];
    [reflexivity | rewrite <- IHd; f_equal ..];
    match goal with
    | |- context [digitValue ?c] =>
        let v := eval vm_compute in (digitValue c) in
        change (digitValue c) with v
    end; lia.
Qed.

Lemma uint_value (d : Decimal.uint) :
  digitsValue (list_ascii_of_string (NilEmpty.string_of_uint d))
  = Z.of_N (Pos.of_uint d).
Proof.
  unfold digitsValue. induction d;
    cbn [NilEmpty.string_of_uint list_ascii_of_string fold_left Pos.of_uint];
    [reflexivity | exact IHd | apply uint_value_acc ..].
Qed.

Lemma digits_spec (n : Z) :
  0 <= n ->
  allDigits (list_ascii_of_string (digits n)) = true
  /\ list_ascii_of_string (digits n) <> []
  /\ digitsValue (list_ascii_of_string (digits n)) = n.
Proof.
  intros Hn. unfold digits.
  pose proof (DecimalN.Unsigned.of_to (Z.to_N n)) as Hof.
  unfold N.of_uint in Hof.
  destruct (N.to_uint (Z.to_N n)) as [|d|d|d|d|d|d|d|d|d|d] eqn:E;
    cbn [NilZero.string_of_uint];
    (split; [first [reflexivity | apply uint_allDigits]|]);
    (split; [discriminate|]);
    first [ rewrite uint_value, Hof; lia
          | simpl in Hof; rewrite <- (Z2N.id n) by lia;
            rewrite <- Hof; reflexivity ].
Qed.

Lemma padStart2_spec (f : Z) :
  0 <= f < 100 ->
  allDigits (list_ascii_of_string (padStart 2 (digits f))) = true
  /\ List.length (list_ascii_of_string (padStart 2 (digits f))) = 2%nat
  /\ digitsValue (list_ascii_of_string (padStart 2 (digits f))) = f.
Proof.
  intros Hf.
  pose (check := fun k : nat =>
          let cs := list_ascii_of_string
                      (padStart 2 (digits (Z.of_nat k))) in
          allDigits cs && (List.length cs =? 2)%nat
          && (digitsValue cs =? Z.of_nat k)).
  assert (Hall : forallb check (seq 0 100) = true) by (vm_compute; reflexivity).
  rewrite forallb_forall in Hall.
  specialize (Hall (Z.to_nat f)).
  assert (Hin : In (Z.to_nat f) (seq 0 100)) by (apply in_seq; lia).
  apply Hall in Hin. unfold check in Hin. rewrite Z2Nat.id in Hin by lia.
  rewrite !andb_true_iff, Nat.eqb_eq, Z.eqb_eq in Hin. tauto.
Qed.

(** A decimal literal with an integer part and a fraction, with or
    without a minus sign, is read as the number it writes. *)
Lemma parseFloat_decimal (negative : bool) (ip fp : list ascii) :
  allDigits ip = true -> ip <> [] -> allDigits fp = true ->
  parseFloatString
    (string_of_list_ascii
       ((if negative then ["-"%char] else []) ++ ip ++ "."%char :: fp)%list)
  = let v := scale10 (digitsValue (ip ++ fp))
                     (- Z.of_nat (List.length fp)) in
    Finite (if negative then (- v)%Q else v).
Proof.
  intros Hip Hne Hfp. unfold parseFloatString.
  rewrite list_ascii_of_string_of_list_ascii.
  destruct ip as [|c ip]; [congruence|].
  assert (Hc : isDigit c = true).
  { unfold allDigits in Hip. cbn [forallb] in Hip.
    now apply andb_true_iff in Hip. }
  assert (Hs : trimStart ((if negative then ["-"%char] else [])
                            ++ (c :: ip) ++ "."%char :: fp)%list
               = ((if negative then ["-"%char] else [])
                    ++ (c :: ip) ++ "."%char :: fp)%list).
  { destruct negative; [reflexivity|]. apply digit_head, Hc. }
  rewrite Hs.
  assert (Hp : parseSign ((if negative then ["-"%char] else [])
                            ++ (c :: ip) ++ "."%char :: fp)%list
               = (negative, ((c :: ip) ++ "."%char :: fp)%list)).
  { destruct negative; [reflexivity|]. apply digit_head, Hc. }
  rewrite Hp.
  assert (Hi : startsWith (list_ascii_of_string "Infinity")
                          ((c :: ip) ++ "."%char :: fp)%list = false)
    by apply digit_head, Hc.
  rewrite Hi.
  rewrite (spanDigits_app (c :: ip) ("."%char :: fp) Hip) by reflexivity.
  rewrite <- (app_nil_r fp) at 1.
  rewrite (spanDigits_app fp [] Hfp I).
  cbn [app parseExponent]. rewrite Z.sub_0_l. reflexivity.
Qed.

(** The characters of [toFixed(2)] of a finite number. *)
Lemma toFixed_chars (q : Q) :
  list_ascii_of_string (toFixed (Finite q) 2)
  = ((if Qltb q 0 then ["-"%char] else [])
       ++ list_ascii_of_string (digits (roundScaled q 2 / 100))
       ++ "."%char
          :: list_ascii_of_string
               (padStart 2 (digits (roundScaled q 2 mod 100))))%list.
Proof.
  unfold toFixed. change (10 ^ Z.of_nat 2) with 100.
  destruct (Qltb q 0);
    cbn [String.append list_ascii_of_string List.app];
    rewrite list_ascii_of_string_app; reflexivity.
Qed.

Lemma roundScaled_parts (q : Q) :
  0 <= roundScaled q 2 / 100 /\ 0 <= roundScaled q 2 mod 100 < 100.
Proof.
  pose proof (roundScaled_nonneg q). split.
  - apply Z.div_pos; lia.
  - apply Z.mod_pos_bound. lia.
Qed.

Lemma parseFloat_toFixed (q : Q) :
  parseFloatString (toFixed (Finite q) 2)
  = Finite (if Qltb q 0 then (- (roundScaled q 2 # 100))%Q
            else roundScaled q 2 # 100).
Proof.
  destruct (roundScaled_parts q) as [Hi Hf].
  destruct (digits_spec _ Hi) as (Hid & Hine & Hiv).
  destruct (padStart2_spec _ Hf) as (Hfd & Hfl & Hfv).
  rewrite <- (string_of_list_ascii_of_string (toFixed (Finite q) 2)).
  rewrite toFixed_chars, (parseFloat_decimal _ _ _ Hid Hine Hfd).
  cbv zeta. rewrite digitsValue_app, Hiv, Hfv, Hfl.
  change (10 ^ Z.of_nat 2) with 100. change (- Z.of_nat 2) with (-2).
  replace (roundScaled q 2 / 100 * 100 + roundScaled q 2 mod 100)
    with (roundScaled q 2) by (Z.div_mod_to_equations; lia).
  reflexivity.
Qed.












(** ** The chart *)









(** ** The type filter *)

Lemma filter_split_perm {A : Type} (p : A -> bool) (l : list A) :
  Permutation l (filter p l ++ filter (fun x => negb (p x)) l).
Proof.
  induction l as [|a l IH]; [apply perm_nil|]. simpl.
  destruct (p a); simpl.
  - now apply perm_skip.
  - now apply Permutation_cons_app.
Qed.

(** X20: the three views of a month.  The view [all] is the month's list;
    the income view and the expense view together hold each record of the
    month exactly once; and the record of a view are the month's records of
    that type, in the order of the month's list. *)
Theorem type_views_partition (ts : list Transaction) (year month : Z) :
  filteredTransactions ts All year month = monthlyTransactions ts year month
  /\ Permutation (filteredTransactions ts All year month)
                 (filteredTransactions ts (Only Income) year month
                    ++ filteredTransactions ts (Only Expense) year month)
  /\ (forall ty,
        filteredTransactions ts (Only ty) year month
        = monthlyTransactions
            (filter (fun t => TxType_eqb (type (data t)) ty) ts) year month)
  /\ (forall ty t,
        In t (filteredTransactions ts (Only ty) year month)
        <-> In t (monthlyTransactions ts year month) /\ type (data t) = ty).
Proof.
  unfold filteredTransactions, filterByType. repeat split.
  - set (l := monthlyTransactions ts year month).
    replace (filter (fun t => TxType_eqb (type (data t)) Expense) l)
      with (filter (fun t => negb (TxType_eqb (type (data t)) Income)) l).
    + apply filter_split_perm.
    + apply filter_ext. intros t. now destruct (type (data t)).
  - intros ty. unfold monthlyTransactions. apply filter_swap.
  - apply filter_In in H. tauto.
  - apply filter_In in H. destruct H as [_ H].
    destruct (type (data t)), ty; simpl in H; congruence.
  - intros [H <-]. apply filter_In. split; [exact H|].
    now destruct (type (data t)).
Qed.

(** ** Authentication *)

(** X21: the message shown for an auth error depends on the code alone.
    It is one of five fixed texts, never empty and never the text that the
    function starts from; the three codes of a failed login share one text,
    so the message does not tell a wrong password from an unknown account;
    and the console is written to exactly for a code that is not known. *)
Theorem friendly_message_range (err : Auth.Error) :
  let (msg, logged) := Auth.getFriendlyErrorMessage err in
  In msg ["This email address is already in use. Please try logging in.";
          "Please enter a valid email address.";
          "Your password must be at least 6 characters long.";
          "Invalid email or password. Please try again.";
          "An error occurred. Please try again."]
  /\ msg <> "" /\ msg <> "An unexpected error occurred. Please try again."
  /\ (In (Auth.code err) ["auth/user-not-found"; "auth/wrong-password";
                          "auth/invalid-credential"] ->
      msg = "Invalid email or password. Please try again.")
  /\ (logged = true
      <-> ~ In (Auth.code err)
               ["auth/email-already-in-use"; "auth/invalid-email";
                "auth/weak-password"; "auth/user-not-found";
                "auth/wrong-password"; "auth/invalid-credential"]).
Proof.
  unfold Auth.getFriendlyErrorMessage.
  destruct (String.eqb_spec (Auth.code err) "auth/email-already-in-use")
    as [E1|E1].
  { rewrite E1. simpl. repeat split; try discriminate; try tauto.
    intros [H|[H|[H|[]]]]; discriminate. }
  destruct (String.eqb_spec (Auth.code err) "auth/invalid-email") as [E2|E2].
  { rewrite E2. simpl. repeat split; try discriminate; try tauto.
    intros [H|[H|[H|[]]]]; discriminate. }
  destruct (String.eqb_spec (Auth.code err) "auth/weak-password") as [E3|E3].
  { rewrite E3. simpl. repeat split; try discriminate; try tauto.
    intros [H|[H|[H|[]]]]; discriminate. }
  destruct (String.eqb_spec (Auth.code err) "auth/user-not-found") as [E4|E4].
  { rewrite E4. simpl. repeat split; try discriminate; tauto. }
  destruct (String.eqb_spec (Auth.code err) "auth/wrong-password") as [E5|E5].
  { rewrite E5. simpl. repeat split; try discriminate; tauto. }
  destruct (String.eqb_spec (Auth.code err) "auth/invalid-credential")
    as [E6|E6].
  { rewrite E6. simpl. repeat split; try discriminate; tauto. }
  simpl. repeat split; try discriminate; try tauto.
  - intros [H|[H|[H|[]]]]; congruence.
  - intros _ [H|[H|[H|[H|[H|[H|[]]]]]]]; congruence.
Qed.

Lemma friendly_message_range_witness :
  fst (Auth.getFriendlyErrorMessage
         {| Auth.code := "auth/wrong-password";
            Auth.message := "Firebase: Error (auth/wrong-password)." |})
  = "Invalid email or password. Please try again.".
Proof.
  pose proof (friendly_message_range
                {| Auth.code := "auth/wrong-password";
                   Auth.message := "Firebase: Error (auth/wrong-password)." |})
    as H.
  cbv zeta in H.
  destruct (Auth.getFriendlyErrorMessage _) as [msg logged].
  destruct H as (_ & _ & _ & H & _). apply H. simpl. tauto.
Defined.

Lemma friendly_message_nonempty (err : Auth.Error) :
  fst (Auth.getFriendlyErrorMessage err) <> "".
Proof.
  unfold Auth.getFriendlyErrorMessage.
  repeat match goal with
         | |- context [if ?c then _ else _] => destruct c
         end; discriminate.
Qed.

(** X22: a sign-in or sign-up attempt.  The handler ends normally; it
    calls sign-in in login mode and sign-up otherwise, with the email and
    password of the form, which it leaves in place; and the error shown
    afterwards is empty exactly when the service accepted the call, and
    never the raw message of the service's error. *)
Theorem auth_submit_outcome (service : Auth.Call -> option Auth.Error)
    (st : Auth.State) :
  let '(st', call, _, completion) := Auth.handleSubmit service st in
  completion = Normal
  /\ call = (if Auth.isLogin st
             then Auth.signInWithEmailAndPassword (Auth.email st)
                                                  (Auth.password st)
             else Auth.createUserWithEmailAndPassword (Auth.email st)
                                                      (Auth.password st))
  /\ Auth.email st' = Auth.email st /\ Auth.password st' = Auth.password st
  /\ Auth.isLogin st' = Auth.isLogin st
  /\ (Auth.error st' = "" <-> service call = None)
  /\ (forall err, service call = Some err ->
                  Auth.error st' = fst (Auth.getFriendlyErrorMessage err)).
Proof.
  unfold Auth.handleSubmit.
  destruct (service _) as [err|] eqn:Es.
  - pose proof (friendly_message_nonempty err) as Hne.
    destruct (Auth.getFriendlyErrorMessage err) as [msg logged] eqn:Eg.
    simpl in *. repeat split; try congruence.
    intros err0 H. rewrite Es in H. injection H as <-. now rewrite Eg.
  - simpl. repeat split; congruence.
Qed.

Lemma auth_submit_outcome_witness :
  Auth.error
    (fst (fst (fst (Auth.handleSubmit
                      (fun _ => Some {| Auth.code := "auth/weak-password";
                                        Auth.message := "weak" |})
                      {| Auth.isLogin := false; Auth.email := "a@b.c";
                         Auth.password := "123"; Auth.error := "" |}))))
  = "Your password must be at least 6 characters long.".
Proof.
  pose proof (auth_submit_outcome
                (fun _ => Some {| Auth.code := "auth/weak-password";
                                  Auth.message := "weak" |})
                {| Auth.isLogin := false; Auth.email := "a@b.c";
                   Auth.password := "123"; Auth.error := "" |}) as H.
  destruct (Auth.handleSubmit _ _) as [[[st' call] logged] completion].
  destruct H as (_ & _ & _ & _ & _ & _ & H).
  cbn [fst]. rewrite (H _ eq_refl). reflexivity.
Defined.

(** ** The loading screen *)

Lemma last_default {A : Type} (l : list A) (a d d' : A) :
  last (a :: l) d = last (a :: l) d'.
Proof.
  revert a. induction l as [|b l IH]; intros a; [reflexivity|].
  change (last (a :: b :: l) d) with (last (b :: l) d).
  change (last (a :: b :: l) d') with (last (b :: l) d').
  apply IH.
Qed.

(** X23: [App] never leaves the loading screen.  Whatever users the auth
    service reports, and however often, every notification ends in the
    uncaught ReferenceError, [loading] stays true, and what is rendered is
    the loading screen, never the tracker or the sign-in form. *)
Theorem App_stays_loading (users : list (option string)) :
  App (afterNotifications users) = LoadingScreen
  /\ Shell.user (afterNotifications users) = last users None
  /\ (forall u st,
        snd (Shell.authStateChanged u st)
        = Uncaught "ReferenceError: setLoading is not defined").
Proof.
  unfold afterNotifications.
  assert (H : forall st,
             Shell.loading st = true ->
             Shell.loading
               (fold_left (fun st u => fst (Shell.authStateChanged u st))
                          users st) = true
             /\ Shell.user
                  (fold_left (fun st u => fst (Shell.authStateChanged u st))
                             users st) = last users (Shell.user st)).
  { induction users as [|u users IH]; intros st Hst; [now split|].
    cbn [fold_left]. destruct (IH (fst (Shell.authStateChanged u st)) Hst)
      as [Hl Hu].
    split; [exact Hl|]. rewrite Hu.
    change (Shell.user (fst (Shell.authStateChanged u st))) with u.
    destruct users as [|o users]; [reflexivity|].
    change (last (u :: o :: users) (Shell.user st))
      with (last (o :: users) (Shell.user st)).
    apply last_default. }
  destruct (H App_initial eq_refl) as [Hl Hu].
  repeat split.
  - unfold App. now rewrite Hl.
  - exact Hu.
Qed.

(** ** Preferences *)

Lemma getItem_setItem (s : Storage) (k v k' : string) :
  getItem (setItem s k v) k'
  = if String.eqb k k' then Some v else getItem s k'.
Proof.
  unfold setItem. cbn [getItem].
  destruct (String.eqb_spec k k') as [->|Hk]; [reflexivity|].
  induction s as [|[k0 v0] s IH]; [reflexivity|]. cbn [filter fst getItem].
  destruct (String.eqb_spec k0 k) as [->|H0]; cbn [negb getItem].
  - destruct (String.eqb_spec k k'); [contradiction | exact IH].
  - now rewrite IH.
Qed.

Lemma toggleTheme_range (t : string) :
  toggleTheme t = "light" \/ toggleTheme t = "dark".
Proof. unfold toggleTheme. destruct (String.eqb t "light"); auto. Qed.

Lemma storedOr_nonempty (s : Storage) (key fallback : string) :
  fallback <> "" -> storedOr s key fallback <> "".
Proof.
  intros H. unfold storedOr.
  destruct (getItem s key) as [v|]; [|exact H].
  destruct v; [exact H | discriminate].
Qed.

(** X24: the theme survives a reload.  The theme is never the empty
    string, after the first click it is [light] or [dark] and the clicks
    alternate between the two; and the theme that the effect stores is the
    theme that the next start reads, whatever else the storage holds.  With
    a stored theme that is neither, the page looks light and the first
    click changes nothing to see. *)
Theorem theme_persists (s : Storage) (n : nat) :
  let theme := toggleTimes n (initialTheme s) in
  theme <> ""
  /\ (n <> O -> theme = "light" \/ theme = "dark")
  /\ (forall s', initialTheme (snd (themeEffect theme s')) = theme)
  /\ (forall s', initialCurrencyCode (snd (themeEffect theme s'))
                 = initialCurrencyCode s')
  /\ (theme = "light" \/ theme = "dark" ->
      toggleTheme (toggleTheme theme) = theme)
  /\ (theme <> "light" -> theme <> "dark" ->
      fst (themeEffect theme s) = false
      /\ fst (themeEffect (toggleTheme theme) s) = false).
Proof.
  cbn zeta.
  assert (Hne : toggleTimes n (initialTheme s) <> "").
  { destruct n as [|n]; cbn [toggleTimes].
    - apply storedOr_nonempty. discriminate.
    - destruct (toggleTheme_range (toggleTimes n (initialTheme s)))
        as [-> | ->]; discriminate. }
  set (theme := toggleTimes n (initialTheme s)) in *.
  repeat split.
  - exact Hne.
  - intros Hn. destruct n as [|n]; [congruence|]. apply toggleTheme_range.
  - intros s'. unfold initialTheme, storedOr, themeEffect. cbn [snd].
    rewrite getItem_setItem, String.eqb_refl.
    destruct theme; [congruence | reflexivity].
  - intros s'. unfold initialCurrencyCode, storedOr, themeEffect. cbn [snd].
    now rewrite getItem_setItem.
  - intros [-> | ->]; reflexivity.
  - unfold themeEffect. cbn [fst]. now apply String.eqb_neq.
  - unfold themeEffect, toggleTheme. cbn [fst].
    apply String.eqb_neq in H. now rewrite H.
Qed.

Lemma theme_persists_witness :
  toggleTimes 3 (initialTheme [("theme", "solarized")]) = "light"
  /\ initialTheme
       (snd (themeEffect
               (toggleTimes 3 (initialTheme [("theme", "solarized")])) []))
     = toggleTimes 3 (initialTheme [("theme", "solarized")]).
Proof.
  destruct (theme_persists [("theme", "solarized")] 3) as (_ & _ & H & _).
  split; [reflexivity | apply H].
Defined.

(** X25: the currency symbol.  For each code that the select offers the
    symbol is the one of the table, it is not empty, and the code that the
    effect stores is the code that the next start reads; for a code that
    the table does not have and that names no inherited member, the symbol
    is the dollar sign. *)
Theorem currency_symbol (code : string) :
  (forall symbol, In (code, symbol) currencySymbols ->
     currentCurrencySymbol code = Some symbol /\ symbol <> ""
     /\ forall s, initialCurrencyCode (currencyEffect code s) = code
                  /\ initialTheme (currencyEffect code s) = initialTheme s)
  /\ (~ In code (map fst currencySymbols) ->
      ~ In code objectPrototypeKeys ->
      currentCurrencySymbol code = Some "$").
Proof.
  split.
  - intros symbol Hin.
    assert (Hs : forall s, initialTheme (currencyEffect code s)
                           = initialTheme s).
    { intros s. unfold initialTheme, storedOr, currencyEffect.
      rewrite getItem_setItem.
      simpl in Hin.
      repeat (destruct Hin as [[= <- <-]|Hin]; [reflexivity|]).
      destruct Hin. }
    assert (Hc : forall s, initialCurrencyCode (currencyEffect code s)
                           = code).
    { intros s. unfold initialCurrencyCode, storedOr, currencyEffect.
      rewrite getItem_setItem, String.eqb_refl.
      simpl in Hin.
      repeat (destruct Hin as [[= <- <-]|Hin]; [reflexivity|]).
      destruct Hin. }
    simpl in Hin.
    repeat (destruct Hin as [[= <- <-]|Hin];
            [split; [reflexivity|]; split; [discriminate|];
             intros s; split; [apply Hc | apply Hs]|]).
    destruct Hin.
  - intros Hno Hproto. unfold currentCurrencySymbol.
    destruct (getItem currencySymbols code) as [sym|] eqn:Eg.
    + exfalso. apply Hno. revert Eg. generalize currencySymbols as tbl.
      induction tbl as [|[k v] tbl IH]; [discriminate|]. cbn [getItem map fst].
      destruct (String.eqb_spec k code) as [->|_]; [now left|].
      intros H. right. now apply IH.
    + destruct (existsb (String.eqb code) objectPrototypeKeys) eqn:Ee;
        [|reflexivity].
      exfalso. apply Hproto. apply existsb_exists in Ee.
      destruct Ee as [x [Hx Hex]]. apply String.eqb_eq in Hex. now subst.
Qed.

Lemma currency_symbol_witness :
  currentCurrencySymbol "XYZ" = Some "$".
Proof.
  apply (currency_symbol "XYZ").
  - simpl. intros H. repeat (destruct H as [H|H]; [discriminate|]). exact H.
  - simpl. intros H. repeat (destruct H as [H|H]; [discriminate|]). exact H.
Defined.

(** ** More on the edit session *)

Lemma abs_abs (a : Number) : Math_abs (Math_abs a) = Math_abs a.
Proof.
  destruct a as [|b|[n d]]; simpl; try reflexivity.
  unfold Qabs. simpl. do 2 f_equal. lia.
Qed.

(** X26: saving an edit without touching the form rewrites the sign of the
    amount after the type.  For a record that the validator lets through,
    the update carries the record's text, category, type and date, and as
    amount the absolute amount with the sign of the type, also when the
    stored amount had the other sign; and a record whose amount is 0 or NaN
    cannot be saved from the edit form as it is. *)
Theorem edit_submit_normalises (t : Transaction) (st : Form.State)
    (store : StoreCommand -> Settled) (today : string) :
  id t <> "" -> text (data t) <> "" -> date (data t) <> "" ->
  (nonZero (amount (data t)) ->
   snd (fst (handleAddOrUpdateTransaction store today
               (handleEditTransaction t st)))
   = Some (updateDoc (id t)
             {| text := text (data t);
                amount :=
                  match type (data t) with
                  | Expense => neg (Math_abs (amount (data t)))
                  | Income => Math_abs (amount (data t))
                  end;
                category := category (data t);
                type := type (data t);
                date := date (data t) |}))
  /\ (~ nonZero (amount (data t)) ->
      handleAddOrUpdateTransaction store today (handleEditTransaction t st)
      = (Form.setFormError "Amount must be a positive number."
           (handleEditTransaction t st), None, Normal)).
Proof.
  intros Hid Htext Hdate. unfold handleAddOrUpdateTransaction.
  change (validateCreateOrUpdate
            (Form.setFormError "" (handleEditTransaction t st)))
    with (validateCreateOrUpdate (handleEditTransaction t st)).
  split.
  - intros Hnz.
    rewrite validate_accepts;
      [| now apply truthyString_nonempty | now apply truthyString_nonempty
       | now apply abs_gt_zero ].
    assert (Ei : editTarget
                   (Form.setFormError "" (handleEditTransaction t st))
                 = Some (id t)).
    { unfold editTarget; simpl. now rewrite truthyString_nonempty. }
    rewrite Ei. cbn [handleEditTransaction Form.text Form.amount Form.date
                     Form.category Form.transactionType parseFloat].
    rewrite abs_abs. now destruct (store _).
  - intros Hz.
    rewrite validate_invalid_amount;
      [reflexivity | now apply truthyString_nonempty
       | now apply truthyString_nonempty |].
    left. cbn [handleEditTransaction Form.amount truthy].
    destruct (truthyNumber (Math_abs (amount (data t)))) eqn:E;
      [|reflexivity].
    exfalso. apply Hz. apply truthyNumber_nonZero.
    destruct (amount (data t)) as [|b|q]; simpl in *; try congruence.
    rewrite negb_true_iff in *.
    destruct (Qeq_bool q 0) eqn:Eq; [|reflexivity].
    apply Qeq_bool_iff in Eq.
    assert (Ha : Qeq_bool (Qabs q) 0 = true).
    { apply Qeq_bool_iff. rewrite Eq. reflexivity. }
    congruence.
Qed.

Lemma edit_submit_normalises_witness :
  snd (fst (handleAddOrUpdateTransaction reliableStore "2024-03-01"
              (handleEditTransaction refund emptyForm)))
  = Some (updateDoc "t5"
            {| text := "Refund"; amount := Finite (- (5));
               category := "Food"; type := Expense;
               date := "2024-01-08" |}).
Proof.
  destruct (edit_submit_normalises refund emptyForm reliableStore
              "2024-03-01") as [H _]; try discriminate.
  rewrite H; [reflexivity|]. simpl. discriminate.
Defined.

(** ** More on the summary *)

Lemma sumQ_positive (qs : list Q) :
  (0 <= sumQ (filter (fun q => Qltb 0 q) qs))%Q.
Proof.
  induction qs as [|x qs IH]; simpl; [apply Qle_refl|].
  destruct (Qltb 0 x) eqn:Hp; [|exact IH]. simpl.
  apply Qltb_lt in Hp. lra.
Qed.

(** X27: for decimal amounts the income and the expense figures never
    carry a minus sign: each reads back as a number that is not below 0. *)
Theorem income_expense_unsigned (ts : list Transaction) :
  Forall finiteAmount ts ->
  exists i e,
    parseFloatString (income (summarize ts)) = Finite i
    /\ parseFloatString (expense (summarize ts)) = Finite e
    /\ (0 <= i)%Q /\ (0 <= e)%Q.
Proof.
  intros Hfin.
  set (I := sumQ (filter (fun q => Qltb 0 q) (map amountQ ts))).
  set (E := (- sumQ (filter (fun q => Qltb q 0) (map amountQ ts)))%Q).
  assert (HI : (0 <= I)%Q) by apply sumQ_positive.
  assert (HE : (0 <= E)%Q).
  { unfold E.
    pose proof (sumQ_negative (map amountQ ts)). lra. }
  assert (Hi : income (summarize ts) = toFixed (Finite I) 2).
  { unfold summarize. cbn [income]. rewrite (amounts_finite ts Hfin).
    rewrite filter_map_Finite, sum_finite. apply toFixed_comp.
    rewrite fold_left_Qplus. unfold I, gt, lt, zero. ring. }
  assert (He : expense (summarize ts) = toFixed (Finite E) 2).
  { unfold summarize. cbn [expense]. rewrite (amounts_finite ts Hfin).
    rewrite filter_map_Finite, sum_finite. cbn [mul]. apply toFixed_comp.
    rewrite fold_left_Qplus. unfold E, lt, zero. ring. }
  rewrite Hi, He, !parseFloat_toFixed.
  assert (Hs : forall x, (0 <= x)%Q -> Qltb x 0 = false)
    by (intros x Hx; now apply Qltb_ge).
  rewrite (Hs I HI), (Hs E HE).
  eexists. eexists. split; [reflexivity|]. split; [reflexivity|].
  pose proof (roundScaled_nonneg I). pose proof (roundScaled_nonneg E).
  split; unfold Qle; simpl; lia.
Qed.

Lemma income_expense_unsigned_witness :
  exists i e,
    parseFloatString (income (summarize scenario)) = Finite i
    /\ parseFloatString (expense (summarize scenario)) = Finite e
    /\ (0 <= i)%Q /\ (0 <= e)%Q.
Proof.
  apply (income_expense_unsigned scenario).
  repeat constructor; eexists; reflexivity.
Defined.

(** ** The chart and an amount that is not a number *)





(** ** The accuracy of the summary *)



